(** * The transcription relay: a shallow embedding of the WebSocket session
      coordinator and the properties of its lifecycle bookkeeping.

    The server keeps, for every browser connection, a handful of closure
    variables ([isDeepgramConnected], [isMuted], [isWebSocketClosed],
    [currentLanguage], ...) and reacts to events of three independent
    streams: the client socket, the upstream Deepgram stream and the local
    microphone.  Each event handler of the source is a function of the state
    monad [M] below; the objects the handlers talk to (the client socket, the
    upstream connections, the microphones, timers and translation promises)
    are kept in the [world] next to the closure variables, and every call
    that leaves the process is recorded as an [effect].

    The libraries are taken at their contract: [ws.send] on a server socket
    transmits while the socket is OPEN and drops the frame otherwise, without
    throwing; [finish], [stop], [send] and [addListener] do not throw on an
    object that exists; every connection made by [deepgram.listen.live]
    opens and closes on its own; [translateText] returns a promise that
    settles in a later turn of the event loop.  The language is taken as
    ECMAScript defines it: numbers are IEEE 754 doubles, and
    [Object.prototype] has the properties the language gives it and no
    others. *)

From Stdlib Require Import ZArith NArith Lia List String Ascii Bool.
From stdpp Require Import base option list gmap pretty.
Import ListNotations.

Local Open Scope Z_scope.
Set Warnings "-register-all".

(** ** JavaScript strings *)

(** A JavaScript string is a sequence of UTF-16 code units. *)
Definition jsstring : Type := list N.

(** A string literal of the source, all of whose characters are ASCII. *)
Definition lit (s : string) : jsstring :=
  map N_of_ascii (list_ascii_of_string s).

(** WhiteSpace and LineTerminator code points of ECMAScript: what
    [String.prototype.trim] strips. *)
Definition isWhiteSpace (c : N) : bool :=
  ((c =? 9) || (c =? 10) || (c =? 11) || (c =? 12) || (c =? 13)
   || (c =? 32) || (c =? 160) || (c =? 5760)
   || ((8192 <=? c) && (c <=? 8202))
   || (c =? 8232) || (c =? 8233) || (c =? 8239) || (c =? 8287)
   || (c =? 12288) || (c =? 65279))%N.

Fixpoint trimStart (s : jsstring) : jsstring :=
  match s with
  | [] => []
  | c :: r => if isWhiteSpace c then trimStart r else s
  end.

Definition trimEnd (s : jsstring) : jsstring := rev (trimStart (rev s)).

Definition trim (s : jsstring) : jsstring := trimEnd (trimStart s).

Definition isEmptyString (s : jsstring) : bool :=
  match s with [] => true | _ => false end.

(** The spec's "empty or whitespace-only". *)
Definition blank (s : jsstring) : bool := forallb isWhiteSpace s.

(** ** JSON values *)

(** What [JSON.parse] can return, and [undefined] for an absent property.
    Numbers are kept as integers: the handlers never compute with a number
    of a message except to add a length to the byte counter, which rounds
    as doubles do ([roundToDouble] below). *)
Inductive jsval : Type :=
| JUndef
| JNull
| JBool (b : bool)
| JNum (n : Z)
| JStr (s : jsstring)
| JArr (items : list jsval)
| JObj (fields : list (jsstring * jsval)).

Inductive exn : Type := SyntaxError | TypeError.

Inductive result (A : Type) : Type :=
| Ok (a : A)
| Throw (e : exn).
Arguments Ok {A} a.
Arguments Throw {A} e.

(** Own property of an object JSON.parse built: of two fields with the same
    name the later one wins; [undefined] when there is none. *)
Fixpoint findField (k : jsstring) (fs : list (jsstring * jsval)) : option jsval :=
  match fs with
  | [] => None
  | (k', v) :: r =>
      match findField k r with
      | Some later => Some later
      | None => if decide (k' = k) then Some v else None
      end
  end.

Definition ownField (k : jsstring) (fs : list (jsstring * jsval)) : jsval :=
  default JUndef (findField k fs).

(** [data.k] for one of the names the handler reads ([type], [language],
    [audio]): a TypeError on [null], the own field of an object, [undefined]
    on every other value (none of these names is a property of a string, a
    number, a boolean or an array). *)
Definition member (k : jsstring) (data : jsval) : result jsval :=
  match data with
  | JUndef | JNull => Throw TypeError
  | JObj fs => Ok (ownField k fs)
  | _ => Ok JUndef
  end.

(** [v.length]. *)
Definition lengthOf (v : jsval) : result jsval :=
  match v with
  | JUndef | JNull => Throw TypeError
  | JStr s => Ok (JNum (Z.of_nat (length s)))
  | JArr l => Ok (JNum (Z.of_nat (length l)))
  | JObj fs => Ok (ownField (lit "length") fs)
  | _ => Ok JUndef
  end.

(** ToString of a value used as a property key ([supportedLanguages[v]]).
    An array joins its items with commas, [null] and [undefined] items
    giving the empty string; integers print in decimal (the exponent form
    that magnitudes from 10^21 on take is left out: either form ends in a
    digit, which no property name of the table or of its prototype does). *)
Fixpoint toKey (v : jsval) : jsstring :=
  match v with
  | JUndef => lit "undefined"
  | JNull => lit "null"
  | JBool true => lit "true"
  | JBool false => lit "false"
  | JNum n => lit (pretty n)
  | JStr s => s
  | JArr items =>
      (fix join (l : list jsval) : jsstring :=
         match l with
         | [] => []
         | x :: r =>
             let sx := match x with JUndef | JNull => [] | _ => toKey x end in
             match r with
             | [] => sx
             | _ => sx ++ lit "," ++ join r
             end
         end) items
  | JObj _ => lit "[object Object]"
  end.

(** ** Numbers *)

(** The double nearest to the integer [x]: [x] itself below 2^53 in
    magnitude; from there on a double has 53 significant bits, and the sum
    is rounded to the nearest multiple of the unit in the last place, to the
    even one of two that are equally near. *)
Definition roundToDouble (x : Z) : Z :=
  let a := Z.abs x in
  if a <? 2 ^ 53 then x
  else
    let e := Z.log2 a - 52 in
    let q := Z.shiftr a e in
    let r := a - Z.shiftl q e in
    let half := Z.shiftl 1 (e - 1) in
    let q' := if r <? half then q
              else if half <? r then q + 1
              else if Z.even q then q else q + 1 in
    Z.sgn x * Z.shiftl q' e.

(** Doubles are finite below 2^1024; a sum that rounds to that or beyond is
    an infinity. *)
Definition isFinite (x : Z) : bool := Z.abs x <? 2 ^ 1024.

(** ** The language table *)

(** What reading a property of an object literal with string values gives:
    the string of an own property, [undefined], or what the object inherits
    from [Object.prototype]: a built-in function, or [Object.prototype]
    itself under the name [__proto__]. *)
Inductive value : Type :=
| VString (s : jsstring)
| VUndefined
| VFunction (name : jsstring)
| VObjectPrototype.

(** The function-valued properties of [Object.prototype]. *)
Definition objectPrototypeMethods : list jsstring :=
  [lit "constructor"; lit "__defineGetter__"; lit "__defineSetter__";
   lit "hasOwnProperty"; lit "__lookupGetter__"; lit "__lookupSetter__";
   lit "isPrototypeOf"; lit "propertyIsEnumerable"; lit "toString";
   lit "valueOf"; lit "toLocaleString"].

(** [Object.prototype[k]]: the accessor [__proto__] of [Object.prototype]
    gives the prototype of the object that is read, which for an object
    literal is [Object.prototype]. *)
Definition inherited (k : jsstring) : value :=
  if bool_decide (k = lit "__proto__") then VObjectPrototype
  else if bool_decide (k ∈ objectPrototypeMethods) then VFunction k
  else VUndefined.

(** The own properties of the object literal [supportedLanguages]; its
    prototype is [Object.prototype]. *)
Definition supportedLanguages : gmap jsstring jsstring :=
  <[lit "ja" := lit "Japanese"]>
  (<[lit "ko" := lit "Korean"]>
  (<[lit "ZH-HANT" := lit "Chinese (Traditional)"]>
  (<[lit "es" := lit "Spanish"]> ∅))).

(** [o[k]] for an object literal [o]: the own property, or else what the
    prototype has. *)
Definition get (o : gmap jsstring jsstring) (k : jsstring) : value :=
  match o !! k with
  | Some s => VString s
  | None => inherited k
  end.

(** [supportedLanguages[v]]. *)
Definition languageLabel (v : jsval) : value :=
  get supportedLanguages (toKey v).


(** ** Objects outside the coordinator *)

(** [readyState] of a WebSocket: 0, 1, 2, 3. *)
Inductive ready_state : Type := CONNECTING | OPEN | CLOSING | CLOSED.

Definition isOpen (r : ready_state) : bool :=
  match r with OPEN => true | _ => false end.

(** An upstream connection object returned by [deepgram.listen.live].  Its
    Open, Error, Close and 'error' listeners are attached when it is made;
    Transcript listeners are attached later, by whichever Open handler runs
    while this object is the value of [deepgramConnection]. *)
Record connection : Type := {
  readyState : ready_state;
  transcriptListeners : nat;
  finishCalled : bool;
}.

(** A translation promise: pending, with the transcript its continuation
    closed over, or settled. *)
Inductive promise : Type :=
| Pending (transcript : jsstring)
| Settled.

(** What is sent upstream: a Buffer of the microphone, or the [audio]
    property of a client message. *)
Inductive payload : Type :=
| Buf (bytes : list N)
| Val (v : jsval).

(** [totalAudioBytesSent]: the number it holds while every operand of [+=]
    was an integer and every sum was finite, and the unevaluated JavaScript
    sum otherwise. *)
Inductive counter : Type :=
| Exact (n : Z)
| Plus (c : counter) (operand : jsval).

(** [c += v]: the sum of two numbers is the double nearest to it. *)
Definition addAssign (c : counter) (v : jsval) : counter :=
  match c, v with
  | Exact n, JNum m =>
      if isFinite (roundToDouble (n + m)) then Exact (roundToDouble (n + m))
      else Plus c v
  | _, _ => Plus c v
  end.

(** ** Frames to the browser *)

(** The text of a debug frame, one constructor per template of the source. *)
Inductive debug_text : Type :=
| DNewConnection
| DCreatingDeepgram
| DDeepgramOpened
| DRawTranscript (transcript : jsstring)
| DExtractedTranscript (transcript : jsstring)
| DNonEmptyTranscript (transcript : jsstring)
| DTranslatedText (text : jsstring)
| DTranslationError (message : jsstring)
| DEmptyTranscript
| DDeepgramError (message : jsstring)
| DDeepgramClosed
| DReconnecting
| DUnhandledDeepgramError (message : jsstring)
| DSentTotal (total : counter)
| DMicNotOpen (state : option ready_state) (connected : bool)
| DMicError (message : jsstring)
| DMicStarted
| DLanguageSet (label : value)
| DMuted
| DUnmuted
| DWebSocketClosed
| DMicStopped
| DDeepgramFinished
| DWebSocketError (message : jsstring).

Inductive status_text : Type := Connected | Disconnected.

Inductive error_text : Type := TranscriptionErrorOccurred | MicrophoneErrorOccurred.

(** The object handed to [JSON.stringify]; what becomes of its [language]
    in the frame is [stringified]. *)
Inductive frame : Type :=
| FDebug (data : debug_text)
| FStatus (data : status_text)
| FError (data : error_text)
| FTranscript (original translated : jsstring) (language : value).

Inductive console_line : Type :=
| LNewConnection
| LCreatingDeepgram
| LClosingDeepgram
| LDeepgramOpened
| LTranslationError (message : jsstring)
| LDeepgramError (message : jsstring)
| LDeepgramClosed
| LUnhandledDeepgramError (message : jsstring)
| LMicError (message : jsstring)
| LWebSocketClosed
| LWebSocketError (message : jsstring)
| LUncaughtException (e : exn).

(** ** Effects *)

(** Every call that leaves the coordinator.  [WsSend] records the ready
    state of the client socket at the call: the socket transmits the frame
    only when it is OPEN and drops it otherwise. *)
Inductive effect : Type :=
| Console (line : console_line)
| WsSend (state : ready_state) (f : frame)
| DgListen (c : nat)
| DgSend (c : nat) (p : payload)
| DgFinish (c : nat)
| DgAddTranscriptListener (c : nat)
| MicNew (m : nat)
| MicStart (m : nat)
| MicStop (m : nat)
| SetTimeout (delay : Z)
| TranslateText (k : nat) (text : jsstring) (targetLang : jsval).

(** ** The session *)

(** The closure variables of one [wss.on('connection')] callback. *)
Record session : Type := {
  deepgramConnection : option nat;
  micInstance : option nat;
  isDeepgramConnected : bool;
  totalAudioBytesSent : counter;
  lastAudioSentTimestamp : Z;
  currentLanguage : jsval;
  isReceivingAudio : bool;
  isMuted : bool;
  isWebSocketClosed : bool;
}.

(** The session and the objects it holds references to. *)
Record world : Type := {
  vars : session;
  wsReadyState : ready_state;
  connections : list connection;
  microphones : list bool;
  timers : nat;
  promises : list promise;
}.

Definition withVars (f : session -> session) (w : world) : world :=
  {| vars := f (vars w); wsReadyState := wsReadyState w;
     connections := connections w; microphones := microphones w;
     timers := timers w; promises := promises w |}.

Definition withWs (r : ready_state) (w : world) : world :=
  {| vars := vars w; wsReadyState := r;
     connections := connections w; microphones := microphones w;
     timers := timers w; promises := promises w |}.

Definition withConnections (f : list connection -> list connection) (w : world) : world :=
  {| vars := vars w; wsReadyState := wsReadyState w;
     connections := f (connections w); microphones := microphones w;
     timers := timers w; promises := promises w |}.

Definition withMicrophones (f : list bool -> list bool) (w : world) : world :=
  {| vars := vars w; wsReadyState := wsReadyState w;
     connections := connections w; microphones := f (microphones w);
     timers := timers w; promises := promises w |}.

Definition withTimers (f : nat -> nat) (w : world) : world :=
  {| vars := vars w; wsReadyState := wsReadyState w;
     connections := connections w; microphones := microphones w;
     timers := f (timers w); promises := promises w |}.

Definition withPromises (f : list promise -> list promise) (w : world) : world :=
  {| vars := vars w; wsReadyState := wsReadyState w;
     connections := connections w; microphones := microphones w;
     timers := timers w; promises := f (promises w) |}.

Definition set_deepgramConnection (c : option nat) (s : session) : session :=
  {| deepgramConnection := c; micInstance := micInstance s;
     isDeepgramConnected := isDeepgramConnected s;
     totalAudioBytesSent := totalAudioBytesSent s;
     lastAudioSentTimestamp := lastAudioSentTimestamp s;
     currentLanguage := currentLanguage s;
     isReceivingAudio := isReceivingAudio s; isMuted := isMuted s;
     isWebSocketClosed := isWebSocketClosed s |}.

Definition set_micInstance (m : option nat) (s : session) : session :=
  {| deepgramConnection := deepgramConnection s; micInstance := m;
     isDeepgramConnected := isDeepgramConnected s;
     totalAudioBytesSent := totalAudioBytesSent s;
     lastAudioSentTimestamp := lastAudioSentTimestamp s;
     currentLanguage := currentLanguage s;
     isReceivingAudio := isReceivingAudio s; isMuted := isMuted s;
     isWebSocketClosed := isWebSocketClosed s |}.

Definition set_isDeepgramConnected (b : bool) (s : session) : session :=
  {| deepgramConnection := deepgramConnection s; micInstance := micInstance s;
     isDeepgramConnected := b;
     totalAudioBytesSent := totalAudioBytesSent s;
     lastAudioSentTimestamp := lastAudioSentTimestamp s;
     currentLanguage := currentLanguage s;
     isReceivingAudio := isReceivingAudio s; isMuted := isMuted s;
     isWebSocketClosed := isWebSocketClosed s |}.

Definition set_totalAudioBytesSent (c : counter) (s : session) : session :=
  {| deepgramConnection := deepgramConnection s; micInstance := micInstance s;
     isDeepgramConnected := isDeepgramConnected s;
     totalAudioBytesSent := c;
     lastAudioSentTimestamp := lastAudioSentTimestamp s;
     currentLanguage := currentLanguage s;
     isReceivingAudio := isReceivingAudio s; isMuted := isMuted s;
     isWebSocketClosed := isWebSocketClosed s |}.

Definition set_lastAudioSentTimestamp (t : Z) (s : session) : session :=
  {| deepgramConnection := deepgramConnection s; micInstance := micInstance s;
     isDeepgramConnected := isDeepgramConnected s;
     totalAudioBytesSent := totalAudioBytesSent s;
     lastAudioSentTimestamp := t;
     currentLanguage := currentLanguage s;
     isReceivingAudio := isReceivingAudio s; isMuted := isMuted s;
     isWebSocketClosed := isWebSocketClosed s |}.

Definition set_currentLanguage (v : jsval) (s : session) : session :=
  {| deepgramConnection := deepgramConnection s; micInstance := micInstance s;
     isDeepgramConnected := isDeepgramConnected s;
     totalAudioBytesSent := totalAudioBytesSent s;
     lastAudioSentTimestamp := lastAudioSentTimestamp s;
     currentLanguage := v;
     isReceivingAudio := isReceivingAudio s; isMuted := isMuted s;
     isWebSocketClosed := isWebSocketClosed s |}.

Definition set_isReceivingAudio (b : bool) (s : session) : session :=
  {| deepgramConnection := deepgramConnection s; micInstance := micInstance s;
     isDeepgramConnected := isDeepgramConnected s;
     totalAudioBytesSent := totalAudioBytesSent s;
     lastAudioSentTimestamp := lastAudioSentTimestamp s;
     currentLanguage := currentLanguage s;
     isReceivingAudio := b; isMuted := isMuted s;
     isWebSocketClosed := isWebSocketClosed s |}.

Definition set_isMuted (b : bool) (s : session) : session :=
  {| deepgramConnection := deepgramConnection s; micInstance := micInstance s;
     isDeepgramConnected := isDeepgramConnected s;
     totalAudioBytesSent := totalAudioBytesSent s;
     lastAudioSentTimestamp := lastAudioSentTimestamp s;
     currentLanguage := currentLanguage s;
     isReceivingAudio := isReceivingAudio s; isMuted := b;
     isWebSocketClosed := isWebSocketClosed s |}.

Definition set_isWebSocketClosed (b : bool) (s : session) : session :=
  {| deepgramConnection := deepgramConnection s; micInstance := micInstance s;
     isDeepgramConnected := isDeepgramConnected s;
     totalAudioBytesSent := totalAudioBytesSent s;
     lastAudioSentTimestamp := lastAudioSentTimestamp s;
     currentLanguage := currentLanguage s;
     isReceivingAudio := isReceivingAudio s; isMuted := isMuted s;
     isWebSocketClosed := b |}.

(** ** The handler monad *)

(** A handler runs on the world, may throw, and leaves a log of effects.  A
    throw keeps the assignments and the effects made before it. *)
Definition M (A : Type) : Type := world -> result A * world * list effect.

Definition ret {A : Type} (a : A) : M A := fun w => (Ok a, w, []).

Definition bind {A B : Type} (m : M A) (k : A -> M B) : M B := fun w =>
  match m w with
  | (Ok a, w1, l1) =>
      match k a w1 with
      | (r, w2, l2) => (r, w2, l1 ++ l2)
      end
  | (Throw e, w1, l1) => (Throw e, w1, l1)
  end.

Definition throw {A : Type} (e : exn) : M A := fun w => (Throw e, w, []).

Definition liftResult {A : Type} (r : result A) : M A := fun w => (r, w, []).

Definition perform (e : effect) : M unit := fun w => (Ok tt, w, [e]).

Definition read {A : Type} (f : world -> A) : M A := fun w => (Ok (f w), w, []).

Definition update (f : world -> world) : M unit := fun w => (Ok tt, f w, []).

Definition assign (f : session -> session) : M unit := update (withVars f).

Declare Scope handler_scope.
Delimit Scope handler_scope with handler.
Notation "x <- m ;; k" := (bind m (fun x => k))
  (at level 20, m at level 99, k at level 200, only parsing) : handler_scope.
Notation "m ;; k" := (bind m (fun _ => k))
  (at level 100, k at level 200, only parsing, right associativity) : handler_scope.
Local Open Scope handler_scope.

(** ** Calls on the objects *)

(** [ws.send(JSON.stringify(f))]. *)
Definition wsSend (f : frame) : M unit :=
  r <- read wsReadyState ;;
  perform (WsSend r f).

Definition console (l : console_line) : M unit := perform (Console l).

Definition sendDebugToClient (d : debug_text) : M unit :=
  r <- read wsReadyState ;;
  if isOpen r then wsSend (FDebug d) else ret tt.

Definition freshConnection : connection :=
  {| readyState := CONNECTING; transcriptListeners := 0; finishCalled := false |}.

(** [deepgram.listen.live({...})]: a new connection object, connecting. *)
Definition listenLive : M nat :=
  c <- read (fun w => length (connections w)) ;;
  update (withConnections (fun cs => cs ++ [freshConnection])) ;;
  perform (DgListen c) ;;
  ret c.

(** The object [deepgramConnection] refers to; a method call on
    [undefined] is a TypeError. *)
Definition theConnection : M nat :=
  v <- read (fun w => deepgramConnection (vars w)) ;;
  match v with
  | Some c => ret c
  | None => throw TypeError
  end.

Definition markFinished (k : connection) : connection :=
  {| readyState := readyState k; transcriptListeners := transcriptListeners k;
     finishCalled := true |}.

Definition addListener (k : connection) : connection :=
  {| readyState := readyState k; transcriptListeners := S (transcriptListeners k);
     finishCalled := finishCalled k |}.

Definition setReadyState (r : ready_state) (k : connection) : connection :=
  {| readyState := r; transcriptListeners := transcriptListeners k;
     finishCalled := finishCalled k |}.

(** [deepgramConnection.finish()]. *)
Definition finish : M unit :=
  c <- theConnection ;;
  update (withConnections (alter markFinished c)) ;;
  perform (DgFinish c).

Definition readyStateOf (cs : list connection) (c : nat) : ready_state :=
  match cs !! c with
  | Some k => readyState k
  | None => CLOSED
  end.

(** [deepgramConnection.getReadyState()]. *)
Definition getReadyState : M ready_state :=
  c <- theConnection ;;
  cs <- read connections ;;
  ret (readyStateOf cs c).

(** [deepgramConnection.send(p)]. *)
Definition dgSend (p : payload) : M unit :=
  c <- theConnection ;;
  perform (DgSend c p).

(** [deepgramConnection.addListener(LiveTranscriptionEvents.Transcript, ...)]. *)
Definition addTranscriptListener : M unit :=
  c <- theConnection ;;
  update (withConnections (alter addListener c)) ;;
  perform (DgAddTranscriptListener c).

(** [setTimeout(..., delay)] with the reconnect callback. *)
Definition setTimeout (delay : Z) : M unit :=
  update (withTimers S) ;;
  perform (SetTimeout delay).

(** [translator.translateText(transcript, null, currentLanguage)]: the call
    is made now, its promise settles in a later event. *)
Definition translateText (transcript : jsstring) : M unit :=
  lang <- read (fun w => currentLanguage (vars w)) ;;
  k <- read (fun w => length (promises w)) ;;
  update (withPromises (fun ps => ps ++ [Pending transcript])) ;;
  perform (TranslateText k transcript lang).

(** ** The handlers *)

Definition setupDeepgram : M unit :=
  connected <- read (fun w => isDeepgramConnected (vars w)) ;;
  closed <- read (fun w => isWebSocketClosed (vars w)) ;;
  if connected || closed then ret tt else
  console LCreatingDeepgram ;;
  sendDebugToClient DCreatingDeepgram ;;
  c <- listenLive ;;
  assign (set_deepgramConnection (Some c)).

Definition setupMicrophone : M unit :=
  m <- read (fun w => length (microphones w)) ;;
  update (withMicrophones (fun ms => ms ++ [false])) ;;
  perform (MicNew m) ;;
  assign (set_micInstance (Some m)) ;;
  update (withMicrophones (alter (fun _ => true) m)) ;;
  perform (MicStart m) ;;
  sendDebugToClient DMicStarted.

(** [transcript && transcript.trim() !== ''] *)
Definition nonEmptyTranscript (transcript : jsstring) : bool :=
  negb (isEmptyString transcript) && negb (isEmptyString (trim transcript)).

(** The Transcript listener up to its [await]. *)
Definition onTranscript (transcript : jsstring) : M unit :=
  sendDebugToClient (DRawTranscript transcript) ;;
  sendDebugToClient (DExtractedTranscript transcript) ;;
  if nonEmptyTranscript transcript then
    sendDebugToClient (DNonEmptyTranscript transcript) ;;
    translateText transcript
  else
    sendDebugToClient DEmptyTranscript.

(** The Transcript listener after its [await], when the promise fulfils. *)
Definition onTranslated (transcript text : jsstring) : M unit :=
  sendDebugToClient (DTranslatedText text) ;;
  lang <- read (fun w => currentLanguage (vars w)) ;;
  wsSend (FTranscript transcript text (languageLabel lang)).

(** The [catch] block of the Transcript listener, when the promise rejects. *)
Definition onTranslationFailed (message : jsstring) : M unit :=
  console (LTranslationError message) ;;
  sendDebugToClient (DTranslationError message).

Definition onDeepgramOpen : M unit :=
  closed <- read (fun w => isWebSocketClosed (vars w)) ;;
  if closed then
    console LClosingDeepgram ;;
    finish
  else
    console LDeepgramOpened ;;
    sendDebugToClient DDeepgramOpened ;;
    assign (set_isDeepgramConnected true) ;;
    wsSend (FStatus Connected) ;;
    addTranscriptListener ;;
    setupMicrophone.

Definition onDeepgramError (message : jsstring) : M unit :=
  console (LDeepgramError message) ;;
  sendDebugToClient (DDeepgramError message) ;;
  wsSend (FError TranscriptionErrorOccurred).

Definition onDeepgramClose : M unit :=
  console LDeepgramClosed ;;
  sendDebugToClient DDeepgramClosed ;;
  assign (set_isDeepgramConnected false) ;;
  wsSend (FStatus Disconnected) ;;
  closed <- read (fun w => isWebSocketClosed (vars w)) ;;
  r <- read wsReadyState ;;
  if negb closed && isOpen r then setTimeout 5000 else ret tt.

(** The callback handed to [setTimeout]. *)
Definition onReconnectTimer : M unit :=
  sendDebugToClient DReconnecting ;;
  setupDeepgram.

Definition onDeepgramRawError (message : jsstring) : M unit :=
  console (LUnhandledDeepgramError message) ;;
  sendDebugToClient (DUnhandledDeepgramError message).

(** [isDeepgramConnected && deepgramConnection.getReadyState() === WebSocket.OPEN] *)
Definition upstreamWritable : M bool :=
  connected <- read (fun w => isDeepgramConnected (vars w)) ;;
  if connected then
    r <- getReadyState ;;
    ret (isOpen r)
  else ret false.

(** The tail shared by the two audio paths: count the bytes and log every
    five seconds. *)
Definition countAndLog (now : Z) (len : jsval) : M unit :=
  total <- read (fun w => totalAudioBytesSent (vars w)) ;;
  assign (set_totalAudioBytesSent (addAssign total len)) ;;
  last <- read (fun w => lastAudioSentTimestamp (vars w)) ;;
  if 5000 <=? now - last then
    total' <- read (fun w => totalAudioBytesSent (vars w)) ;;
    sendDebugToClient (DSentTotal total') ;;
    assign (set_lastAudioSentTimestamp now)
  else ret tt.

(** [micInputStream.on('data', ...)]; [now] is what [Date.now()] returns. *)
Definition onMicData (now : Z) (data : list N) : M unit :=
  writable <- upstreamWritable ;;
  if writable then
    dgSend (Buf data) ;;
    countAndLog now (JNum (Z.of_nat (length data)))
  else
    v <- read (fun w => deepgramConnection (vars w)) ;;
    st <- match v with
          | Some _ => r <- getReadyState ;; ret (Some r)
          | None => ret None
          end ;;
    connected <- read (fun w => isDeepgramConnected (vars w)) ;;
    sendDebugToClient (DMicNotOpen st connected) ;;
    if negb connected then
      sendDebugToClient DReconnecting ;;
      setupDeepgram
    else ret tt.

Definition onMicError (message : jsstring) : M unit :=
  console (LMicError message) ;;
  sendDebugToClient (DMicError message) ;;
  wsSend (FError MicrophoneErrorOccurred).

(** [v === 'name'] *)
Definition isString (name : string) (v : jsval) : bool :=
  match v with
  | JStr s => bool_decide (s = lit name)
  | _ => false
  end.

(** [ws.on('message', ...)]; [message] is [None] when JSON.parse rejects the
    text and the parsed value otherwise. *)
Definition onMessage (now : Z) (message : option jsval) : M unit :=
  data <- match message with
          | Some v => ret v
          | None => throw SyntaxError
          end ;;
  type <- liftResult (member (lit "type") data) ;;
  if isString "setLanguage" type then
    language <- liftResult (member (lit "language") data) ;;
    assign (set_currentLanguage language) ;;
    lang <- read (fun w => currentLanguage (vars w)) ;;
    sendDebugToClient (DLanguageSet (languageLabel lang))
  else if isString "audioData" type then
    muted <- read (fun w => isMuted (vars w)) ;;
    writable <- (if muted then ret false else upstreamWritable) ;;
    if writable then
      audio <- liftResult (member (lit "audio") data) ;;
      dgSend (Val audio) ;;
      len <- liftResult (lengthOf audio) ;;
      countAndLog now len
    else ret tt
  else if isString "mute" type then
    assign (set_isMuted true) ;;
    sendDebugToClient DMuted
  else if isString "unmute" type then
    assign (set_isMuted false) ;;
    sendDebugToClient DUnmuted
  else ret tt.

(** [micInstance.stop()]. *)
Definition micStop (m : nat) : M unit :=
  update (withMicrophones (alter (fun _ => false) m)) ;;
  perform (MicStop m).

(** [ws.on('close', ...)]. *)
Definition onClose : M unit :=
  console LWebSocketClosed ;;
  sendDebugToClient DWebSocketClosed ;;
  assign (set_isWebSocketClosed true) ;;
  mic <- read (fun w => micInstance (vars w)) ;;
  match mic with
  | Some m => micStop m ;; sendDebugToClient DMicStopped
  | None => ret tt
  end ;;
  conn <- read (fun w => deepgramConnection (vars w)) ;;
  match conn with
  | Some _ =>
      finish ;;
      sendDebugToClient DDeepgramFinished ;;
      assign (set_isDeepgramConnected false)
  | None => ret tt
  end ;;
  assign (set_isReceivingAudio false).

(** [ws.on('error', ...)]. *)
Definition onError (message : jsstring) : M unit :=
  console (LWebSocketError message) ;;
  sendDebugToClient (DWebSocketError message).

(** The body of [wss.on('connection', ...)]. *)
Definition onConnection : M unit :=
  console LNewConnection ;;
  sendDebugToClient DNewConnection ;;
  setupDeepgram.

(** ** The event loop *)

(** What the three streams, the timers and the translation service can
    deliver to the session. *)
Inductive event : Type :=
| WsMessage (now : Z) (message : option jsval)
| WsClosing
| WsClose
| WsError (message : jsstring)
| DeepgramOpen (c : nat)
| DeepgramTranscript (c : nat) (transcript : jsstring)
| DeepgramError (c : nat) (message : jsstring)
| DeepgramRawError (c : nat) (message : jsstring)
| DeepgramClose (c : nat)
| MicData (m : nat) (now : Z) (data : list N)
| MicError (m : nat) (message : jsstring)
| TimerFires
| TranslationResolves (k : nat) (text : jsstring)
| TranslationRejects (k : nat) (message : jsstring).

(** A handler that throws leaves the exception to
    [process.on('uncaughtException')] (for the asynchronous listener,
    [process.on('unhandledRejection')]), which prints it. *)
Definition runHandler (h : M unit) (w : world) : world * list effect :=
  match h w with
  | (Ok _, w', l) => (w', l)
  | (Throw e, w', l) => (w', l ++ [Console (LUncaughtException e)])
  end.

(** The same listener attached [n] times. *)
Fixpoint times (n : nat) (h : M unit) : M unit :=
  match n with
  | O => ret tt
  | S n' => h ;; times n' h
  end.

Definition notClosed (r : ready_state) : bool :=
  match r with CLOSED => false | _ => true end.

(** One turn of the event loop; [None] when the event cannot occur in [w]:
    a socket delivers messages only while open and closes once, a connection
    opens once, from CONNECTING, emits transcripts while open and closes
    once, a microphone emits data while it runs, a timer fires when one is
    pending and a promise settles once. *)
Definition step (w : world) (e : event) : option (world * list effect) :=
  match e with
  | WsMessage now message =>
      if isOpen (wsReadyState w) then Some (runHandler (onMessage now message) w)
      else None
  | WsClosing =>
      if isOpen (wsReadyState w) then Some (withWs CLOSING w, []) else None
  | WsClose =>
      if notClosed (wsReadyState w) then Some (runHandler onClose (withWs CLOSED w))
      else None
  | WsError message =>
      if notClosed (wsReadyState w) then Some (runHandler (onError message) w)
      else None
  | DeepgramOpen c =>
      match connections w !! c with
      | Some k =>
          match readyState k with
          | CONNECTING =>
              Some (runHandler onDeepgramOpen
                      (withConnections (alter (setReadyState OPEN) c) w))
          | _ => None
          end
      | None => None
      end
  | DeepgramTranscript c transcript =>
      match connections w !! c with
      | Some k =>
          if isOpen (readyState k)
          then Some (runHandler (times (transcriptListeners k) (onTranscript transcript)) w)
          else None
      | None => None
      end
  | DeepgramError c message =>
      match connections w !! c with
      | Some k =>
          if notClosed (readyState k) then Some (runHandler (onDeepgramError message) w)
          else None
      | None => None
      end
  | DeepgramRawError c message =>
      match connections w !! c with
      | Some k =>
          if notClosed (readyState k) then Some (runHandler (onDeepgramRawError message) w)
          else None
      | None => None
      end
  | DeepgramClose c =>
      match connections w !! c with
      | Some k =>
          if notClosed (readyState k)
          then Some (runHandler onDeepgramClose
                       (withConnections (alter (setReadyState CLOSED) c) w))
          else None
      | None => None
      end
  | MicData m now data =>
      match microphones w !! m with
      | Some true => Some (runHandler (onMicData now data) w)
      | _ => None
      end
  | MicError m message =>
      match microphones w !! m with
      | Some _ => Some (runHandler (onMicError message) w)
      | None => None
      end
  | TimerFires =>
      match timers w with
      | S n => Some (runHandler onReconnectTimer (withTimers (fun _ => n) w))
      | O => None
      end
  | TranslationResolves k text =>
      match promises w !! k with
      | Some (Pending transcript) =>
          Some (runHandler (onTranslated transcript text)
                  (withPromises (<[k := Settled]>) w))
      | _ => None
      end
  | TranslationRejects k message =>
      match promises w !! k with
      | Some (Pending _) =>
          Some (runHandler (onTranslationFailed message)
                  (withPromises (<[k := Settled]>) w))
      | _ => None
      end
  end.

(** A sequence of turns, with the effects of all of them in order. *)
Fixpoint run (w : world) (es : list event) : option (world * list effect) :=
  match es with
  | [] => Some (w, [])
  | e :: r =>
      match step w e with
      | Some (w1, l1) =>
          match run w1 r with
          | Some (w2, l2) => Some (w2, l1 ++ l2)
          | None => None
          end
      | None => None
      end
  end.

(** The closure variables as declared, before the handlers are installed. *)
Definition initialSession : session :=
  {| deepgramConnection := None; micInstance := None;
     isDeepgramConnected := false;
     totalAudioBytesSent := Exact 0; lastAudioSentTimestamp := 0;
     currentLanguage := JStr (lit "ja");
     isReceivingAudio := false; isMuted := false;
     isWebSocketClosed := false |}.

Definition emptyWorld : world :=
  {| vars := initialSession; wsReadyState := OPEN; connections := [];
     microphones := []; timers := 0%nat; promises := [] |}.

(** The session once the connection callback has returned. *)
Definition connected : world * list effect := runHandler onConnection emptyWorld.

Definition start : world := fst connected.

(** A world the session can be in. *)
Definition reachable (w : world) : Prop :=
  exists es l, run start es = Some (w, l).

(** ** The variant without translation *)

(** An earlier server of the repository: the same session, without the
    translation step, the mute flag and the language; it logs through
    winston.  Only its Transcript listener is needed below. *)
Module NoTranslation.

Inductive log_line : Type :=
| ReceivedTranscript (transcript : jsstring)
| ReceivedEmptyTranscript.

Inductive effect : Type :=
| LoggerDebug (line : log_line)
| WsSend (type : jsstring) (data : jsstring).

(** [sendToClient(ws, type, message)], for the ready state of [ws]. *)
Definition sendToClient (ws : ready_state) (type message : jsstring) : list effect :=
  if isOpen ws then [WsSend type message] else [].

(** The Transcript listener: [if (transcript) ... else ...]. *)
Definition onTranscript (ws : ready_state) (transcript : jsstring) : list effect :=
  if negb (isEmptyString transcript) then
    LoggerDebug (ReceivedTranscript transcript)
    :: sendToClient ws (lit "transcript") transcript
  else
    [LoggerDebug ReceivedEmptyTranscript].

Definition isTranscriptFrame (e : effect) : bool :=
  match e with
  | WsSend type _ => bool_decide (type = lit "transcript")
  | _ => false
  end.

End NoTranslation.

(** ** Observations on effect logs *)

Definition isTranscriptFrame (e : effect) : bool :=
  match e with WsSend _ (FTranscript _ _ _) => true | _ => false end.

Definition isTranslateCall (e : effect) : bool :=
  match e with TranslateText _ _ _ => true | _ => false end.

Definition isSetTimeout (e : effect) : bool :=
  match e with SetTimeout _ => true | _ => false end.

Definition isWsSend (e : effect) : bool :=
  match e with WsSend _ _ => true | _ => false end.

(** A frame the socket transmits: sent while it was OPEN. *)
Definition isDelivered (e : effect) : bool :=
  match e with WsSend OPEN _ => true | _ => false end.

Definition isDgSend (e : effect) : bool :=
  match e with DgSend _ _ => true | _ => false end.

Definition isDgListen (e : effect) : bool :=
  match e with DgListen _ => true | _ => false end.

(** A call that releases a resource: [micInstance.stop()] or
    [deepgramConnection.finish()]. *)
Definition isRelease (e : effect) : bool :=
  match e with MicStop _ | DgFinish _ => true | _ => false end.

(** A call that reaches the upstream service or the microphone. *)
Definition isUpstreamCall (e : effect) : bool :=
  match e with
  | DgListen _ | DgSend _ _ | DgAddTranscriptListener _ | MicNew _ | MicStart _ => true
  | _ => false
  end.

(** The upstream connections that are open. *)
Definition openConnections (w : world) : list connection :=
  List.filter (fun k => isOpen (readyState k)) (connections w).




(** [isDeepgramConnected && deepgramConnection.getReadyState() === OPEN] as
    a predicate of the world: an upstream stream is open for the session. *)
Definition writable (w : world) : bool :=
  isDeepgramConnected (vars w)
  && match deepgramConnection (vars w) with
     | Some c => isOpen (readyStateOf (connections w) c)
     | None => false
     end.

(** The handler returns instead of throwing. *)
Definition returnsNormally {A : Type} (h : M A) (w : world) : Prop :=
  exists a, fst (fst (h w)) = Ok a.

(** What [runHandler] appends for the result of the handler. *)
Definition uncaught {A : Type} (r : result A) : list effect :=
  match r with
  | Ok _ => []
  | Throw e => [Console (LUncaughtException e)]
  end.

(** ** Messages of the browser client *)

(** [{ type: 'mute' }], [{ type: 'unmute' }] and
    [{ type: 'setLanguage', language }] as the front end builds them, and an
    [audioData] message. *)
Definition muteMessage : jsval := JObj [(lit "type", JStr (lit "mute"))].

Definition unmuteMessage : jsval := JObj [(lit "type", JStr (lit "unmute"))].


Definition audioDataMessage (audio : jsval) : jsval :=
  JObj [(lit "type", JStr (lit "audioData")); (lit "audio", audio)].

(** ** Sample sessions *)

(** The world after the events [es], from the start of the session. *)
Definition after (es : list event) : world :=
  match run start es with
  | Some (w, _) => w
  | None => start
  end.

(** The upstream stream has opened: the session is streaming. *)
Definition streaming : world := after [DeepgramOpen 0%nat].

(** Streaming, and the client has sent [mute]. *)
Definition mutedStreaming : world :=
  after [DeepgramOpen 0%nat; WsMessage 0 (Some muteMessage)].

(** Streaming, and the client socket has started its closing handshake. *)
Definition clientClosing : world := after [DeepgramOpen 0%nat; WsClosing].

(** The client went away while the translation of "hello" was in flight. *)
Definition closedWhileTranslating : world :=
  after [DeepgramOpen 0%nat; DeepgramTranscript 0%nat (lit "hello"); WsClose].

(** The upstream stream drops, the microphone delivers two chunks before a
    new stream has opened, then both new streams open. *)
Definition reconnectRace : list event :=
  [DeepgramOpen 0%nat; DeepgramClose 0%nat;
   MicData 0%nat 1 [0%N; 1%N]; MicData 0%nat 2 [2%N; 3%N];
   DeepgramOpen 1%nat; DeepgramOpen 2%nat].

(** ** Invariants and closed forms used in the proofs *)

(** A debug frame handed to the socket. *)
Definition isDebugFrame (e : effect) : Prop :=
  match e with WsSend _ (FDebug _) => True | _ => False end.

(** What [sendDebugToClient] logs in the world [w]. *)
Definition debugLog (w : world) (d : debug_text) : list effect :=
  if isOpen (wsReadyState w) then [WsSend OPEN (FDebug d)] else [].



(** The client-close handler has run: the flag is set, the socket is CLOSED,
    the session counts itself as disconnected from upstream and has made
    [n] upstream connections. *)
Definition gone (n : nat) (w : world) : Prop :=
  isWebSocketClosed (vars w) = true /\ wsReadyState w = CLOSED
  /\ isDeepgramConnected (vars w) = false /\ length (connections w) = n.

(** An effect that reaches neither the browser nor the upstream service nor
    the microphone, and arms no timer. *)
Definition quiet (e : effect) : Prop :=
  isDelivered e = false /\ isUpstreamCall e = false /\ isSetTimeout e = false.

(** [deepgramConnection] is assigned before the first event and never
    cleared. *)
Definition hasConnection (w : world) : Prop :=
  deepgramConnection (vars w) <> None.


(** ** The claims of the specification, as stated *)

(** While muted, or while no upstream stream is open, no audio is sent
    upstream, whichever path it comes by. *)
Definition audioGated (w : world) (e : event) : Prop :=
  (isMuted (vars w) = true \/ writable w = false) ->
  forall w' l, step w e = Some (w', l) -> List.filter isDgSend l = [].

(** At most one upstream stream is open. *)
Definition atMostOneOpen (w : world) : Prop :=
  (length (openConnections w) <= 1)%nat.

(** A whitespace-only or empty transcript produces no transcript frame, in
    the variant without translation. *)
Definition blankDropped (ws : ready_state) (transcript : jsstring) : Prop :=
  blank transcript = true ->
  List.filter NoTranslation.isTranscriptFrame
    (NoTranslation.onTranscript ws transcript) = [].

(** A 'debug' or 'error' frame handed to the socket. *)
Definition isDebugOrError (e : effect) : bool :=
  match e with
  | WsSend _ (FDebug _) | WsSend _ (FError _) => true
  | _ => false
  end.




(** When the upstream stream closes, one reconnect is scheduled if and only
    if the client link is not closed. *)
Definition reconnectIffClientNotClosed (w : world) (c : nat) : Prop :=
  forall w' l, step w (DeepgramClose c) = Some (w', l) ->
  (isWebSocketClosed (vars w) = false /\ wsReadyState w <> CLOSED
   <-> List.filter isSetTimeout l = [SetTimeout 5000]).

(** A second run of the disconnect handler releases nothing and changes
    nothing. *)
Definition secondCloseReleasesNothing (w : world) : Prop :=
  let w1 := fst (runHandler onClose w) in
  List.filter isRelease (snd (runHandler onClose w1)) = []
  /\ fst (runHandler onClose w1) = w1.

(** ** A weakest-precondition calculus for handlers *)

(** [post h w Q]: running [h] on [w] ends in a result, a world and a log
    that satisfy [Q]. *)
Definition post {A : Type} (h : M A) (w : world)
    (Q : result A -> world -> list effect -> Prop) : Prop :=
  match h w with
  | (r, w', l) => Q r w' l
  end.

(** [h] keeps the invariant [I] and logs only effects in [P]. *)
Definition respects (I : world -> Prop) (P : effect -> Prop) (h : M unit) : Prop :=
  forall w, I w -> post h w (fun r w' l => I w' /\ Forall P (l ++ uncaught r)).

(** ** Further observations, for the properties beyond the claims *)

(** [{ type: 'setAudioDevice', deviceId }], which the front end sends when
    the user picks another input device. *)
Definition setAudioDeviceMessage (deviceId : jsval) : jsval :=
  JObj [(lit "type", JStr (lit "setAudioDevice")); (lit "deviceId", deviceId)].

(** The [type] is one the message handler has a branch for. *)
Definition knownType (type : jsval) : bool :=
  isString "setLanguage" type || isString "audioData" type
  || isString "mute" type || isString "unmute" type.

(** The payloads handed to [deepgramConnection.send], in order. *)
Fixpoint sentPayloads (l : list effect) : list payload :=
  match l with
  | [] => []
  | DgSend _ p :: r => p :: sentPayloads r
  | _ :: r => sentPayloads r
  end.

(** The [length] of a payload when it is an integer: the size of a Buffer,
    of a string or of an array, or the integer [length] property of an
    object. *)
Definition payloadLength (p : payload) : option Z :=
  match p with
  | Buf b => Some (Z.of_nat (length b))
  | Val a =>
      match lengthOf a with
      | Ok (JNum n) => Some n
      | _ => None
      end
  end.

(** Every payload has a [length] that is a non-negative integer. *)
Definition nonNegativeLengths (ps : list payload) : Prop :=
  Forall (fun p => exists k, payloadLength p = Some k /\ 0 <= k) ps.

(** The sum of the lengths of the payloads, when each has one. *)
Fixpoint totalLength (ps : list payload) : option Z :=
  match ps with
  | [] => Some 0
  | p :: r =>
      match payloadLength p, totalLength r with
      | Some n, Some m => Some (n + m)
      | _, _ => None
      end
  end.

(** A debug frame with the running total of bytes. *)
Definition isSentTotal (e : effect) : bool :=
  match e with WsSend _ (FDebug (DSentTotal _)) => true | _ => false end.

(** The status frame 'Connected'. *)
Definition isConnectedStatus (e : effect) : bool :=
  match e with WsSend _ (FStatus Connected) => true | _ => false end.

(** An event that reports an error of one of the three streams. *)
Definition isErrorEvent (e : event) : bool :=
  match e with
  | WsError _ | DeepgramError _ _ | DeepgramRawError _ _ | MicError _ _ => true
  | _ => false
  end.

(** The index of the object made last. *)
Definition lastIndex {A : Type} (l : list A) : option nat :=
  match length l with
  | O => None
  | S n => Some n
  end.

(** The references of the session and its flags fit the objects: the two
    handles name the object made last, the closed flag mirrors the socket,
    a closed session counts itself as disconnected from upstream, and every
    microphone runs, except that the last one is stopped once the client has
    gone. *)
Definition consistent (w : world) : Prop :=
  connections w <> []
  /\ deepgramConnection (vars w) = lastIndex (connections w)
  /\ micInstance (vars w) = lastIndex (microphones w)
  /\ (isWebSocketClosed (vars w) = true <-> wsReadyState w = CLOSED)
  /\ (isWebSocketClosed (vars w) = true -> isDeepgramConnected (vars w) = false)
  /\ Forall (fun b => b = true) (take (length (microphones w) - 1) (microphones w))
  /\ (isWebSocketClosed (vars w) = false -> Forall (fun b => b = true) (microphones w)).

(** The chunks [chunks] of microphone [m], each with the clock reading at
    its arrival. *)
Definition micChunks (m : nat) (chunks : list (Z * list N)) : list event :=
  map (fun c => MicData m (fst c) (snd c)) chunks.

(** The upstream service fails [n] times in a row: the connection made last
    ([c], then [c + 1], ...) closes and the reconnect timer fires. *)
Fixpoint outage (c n : nat) : list event :=
  match n with
  | O => []
  | S n' => DeepgramClose c :: TimerFires :: outage (S c) n'
  end.

(** The session waits for the connection made last, [c], to open, with the
    client connected. *)
Definition awaiting (c : nat) (w : world) : Prop :=
  wsReadyState w = OPEN /\ isWebSocketClosed (vars w) = false
  /\ isDeepgramConnected (vars w) = false
  /\ length (connections w) = S c
  /\ (exists k, connections w !! c = Some k /\ readyState k = CONNECTING).

(** ** The server without translation, in full *)

(** The whole session of the earlier server: the same three streams, no
    mute flag, no language, no closed flag.  Everything it sends to the
    client goes through [NoTranslation.sendToClient]; what it prints goes to
    the winston logger. *)
Module PlainServer.

Inductive logger_line : Type :=
| NewConnection
| CreatingDeepgram
| DeepgramOpened
| DeepgramError (message : jsstring)
| DeepgramClosed
| Reconnecting
| UnhandledDeepgramError (message : jsstring)
| SentTotal (total : counter)
| MicNotOpen (state : option ready_state) (connected : bool)
| MicError (message : jsstring)
| MicStarted
| WebSocketClosed
| MicStopped
| DeepgramFinished
| WebSocketError (message : jsstring)
| UncaughtException (e : exn).

Inductive effect : Type :=
| Client (e : NoTranslation.effect)
| Logger (line : logger_line)
| DgListen (c : nat)
| DgSend (c : nat) (data : list N)
| DgFinish (c : nat)
| DgAddTranscriptListener (c : nat)
| MicNew (m : nat)
| MicStart (m : nat)
| MicStop (m : nat)
| SetTimeout (delay : Z).

(** The closure variables of the connection callback. *)
Record session : Type := {
  deepgramConnection : option nat;
  micInstance : option nat;
  isDeepgramConnected : bool;
  totalAudioBytesSent : counter;
  lastAudioSentTimestamp : Z;
}.

Record world : Type := {
  vars : session;
  wsReadyState : ready_state;
  connections : list connection;
  microphones : list bool;
  timers : nat;
}.

Definition withVars (f : session -> session) (w : world) : world :=
  {| vars := f (vars w); wsReadyState := wsReadyState w;
     connections := connections w; microphones := microphones w;
     timers := timers w |}.

Definition withWs (r : ready_state) (w : world) : world :=
  {| vars := vars w; wsReadyState := r;
     connections := connections w; microphones := microphones w;
     timers := timers w |}.

Definition withConnections (f : list connection -> list connection) (w : world) : world :=
  {| vars := vars w; wsReadyState := wsReadyState w;
     connections := f (connections w); microphones := microphones w;
     timers := timers w |}.

Definition withMicrophones (f : list bool -> list bool) (w : world) : world :=
  {| vars := vars w; wsReadyState := wsReadyState w;
     connections := connections w; microphones := f (microphones w);
     timers := timers w |}.

Definition withTimers (f : nat -> nat) (w : world) : world :=
  {| vars := vars w; wsReadyState := wsReadyState w;
     connections := connections w; microphones := microphones w;
     timers := f (timers w) |}.

Definition set_deepgramConnection (c : option nat) (s : session) : session :=
  {| deepgramConnection := c; micInstance := micInstance s;
     isDeepgramConnected := isDeepgramConnected s;
     totalAudioBytesSent := totalAudioBytesSent s;
     lastAudioSentTimestamp := lastAudioSentTimestamp s |}.

Definition set_micInstance (m : option nat) (s : session) : session :=
  {| deepgramConnection := deepgramConnection s; micInstance := m;
     isDeepgramConnected := isDeepgramConnected s;
     totalAudioBytesSent := totalAudioBytesSent s;
     lastAudioSentTimestamp := lastAudioSentTimestamp s |}.

Definition set_isDeepgramConnected (b : bool) (s : session) : session :=
  {| deepgramConnection := deepgramConnection s; micInstance := micInstance s;
     isDeepgramConnected := b;
     totalAudioBytesSent := totalAudioBytesSent s;
     lastAudioSentTimestamp := lastAudioSentTimestamp s |}.

Definition set_totalAudioBytesSent (n : counter) (s : session) : session :=
  {| deepgramConnection := deepgramConnection s; micInstance := micInstance s;
     isDeepgramConnected := isDeepgramConnected s;
     totalAudioBytesSent := n;
     lastAudioSentTimestamp := lastAudioSentTimestamp s |}.

Definition set_lastAudioSentTimestamp (t : Z) (s : session) : session :=
  {| deepgramConnection := deepgramConnection s; micInstance := micInstance s;
     isDeepgramConnected := isDeepgramConnected s;
     totalAudioBytesSent := totalAudioBytesSent s;
     lastAudioSentTimestamp := t |}.

(** A handler: a world transformer that may throw and logs effects. *)
Definition Handler (A : Type) : Type := world -> result A * world * list effect.

Definition ret {A : Type} (a : A) : Handler A := fun w => (Ok a, w, []).

Definition bind {A B : Type} (m : Handler A) (k : A -> Handler B) : Handler B := fun w =>
  match m w with
  | (Ok a, w1, l1) =>
      match k a w1 with
      | (r, w2, l2) => (r, w2, l1 ++ l2)
      end
  | (Throw e, w1, l1) => (Throw e, w1, l1)
  end.

Definition throw {A : Type} (e : exn) : Handler A := fun w => (Throw e, w, []).

Definition perform (e : effect) : Handler unit := fun w => (Ok tt, w, [e]).

Definition emit (l : list effect) : Handler unit := fun w => (Ok tt, w, l).

Definition read {A : Type} (f : world -> A) : Handler A := fun w => (Ok (f w), w, []).

Definition update (f : world -> world) : Handler unit := fun w => (Ok tt, f w, []).

Definition assign (f : session -> session) : Handler unit := update (withVars f).

Declare Scope plain_scope.
Delimit Scope plain_scope with plain.
Notation "x <- m ;; k" := (bind m (fun x => k))
  (at level 20, m at level 99, k at level 200, only parsing) : plain_scope.
Notation "m ;; k" := (bind m (fun _ => k))
  (at level 100, k at level 200, only parsing, right associativity) : plain_scope.
Local Open Scope plain_scope.

(** [sendToClient(ws, type, message)]. *)
Definition sendToClient (type : string) (message : jsstring) : Handler unit :=
  r <- read wsReadyState ;;
  emit (map Client (NoTranslation.sendToClient r (lit type) message)).

Definition logger (line : logger_line) : Handler unit := perform (Logger line).

Definition listenLive : Handler nat :=
  c <- read (fun w => length (connections w)) ;;
  update (withConnections (fun cs => cs ++ [freshConnection])) ;;
  perform (DgListen c) ;;
  ret c.

Definition theConnection : Handler nat :=
  v <- read (fun w => deepgramConnection (vars w)) ;;
  match v with
  | Some c => ret c
  | None => throw TypeError
  end.

Definition finish : Handler unit :=
  c <- theConnection ;;
  update (withConnections (alter markFinished c)) ;;
  perform (DgFinish c).

Definition getReadyState : Handler ready_state :=
  c <- theConnection ;;
  cs <- read connections ;;
  ret (readyStateOf cs c).

Definition dgSend (data : list N) : Handler unit :=
  c <- theConnection ;;
  perform (DgSend c data).

Definition addTranscriptListener : Handler unit :=
  c <- theConnection ;;
  update (withConnections (alter addListener c)) ;;
  perform (DgAddTranscriptListener c).

Definition setTimeout (delay : Z) : Handler unit :=
  update (withTimers S) ;;
  perform (SetTimeout delay).

(** [setupDeepgram]: no guard, every call makes a connection. *)
Definition setupDeepgram : Handler unit :=
  logger CreatingDeepgram ;;
  sendToClient "debug" (lit "Creating Deepgram connection...") ;;
  c <- listenLive ;;
  assign (set_deepgramConnection (Some c)).

Definition setupMicrophone : Handler unit :=
  m <- read (fun w => length (microphones w)) ;;
  update (withMicrophones (fun ms => ms ++ [false])) ;;
  perform (MicNew m) ;;
  assign (set_micInstance (Some m)) ;;
  update (withMicrophones (alter (fun _ => true) m)) ;;
  perform (MicStart m) ;;
  logger MicStarted.

(** The Transcript listener, with the socket as the listener finds it. *)
Definition onTranscript (transcript : jsstring) : Handler unit :=
  r <- read wsReadyState ;;
  emit (map Client (NoTranslation.onTranscript r transcript)).

Definition onDeepgramOpen : Handler unit :=
  logger DeepgramOpened ;;
  sendToClient "debug" (lit "Deepgram connection opened") ;;
  assign (set_isDeepgramConnected true) ;;
  sendToClient "status" (lit "Connected") ;;
  addTranscriptListener ;;
  setupMicrophone.

Definition onDeepgramError (message : jsstring) : Handler unit :=
  logger (DeepgramError message) ;;
  sendToClient "error" (lit "Transcription error occurred").

(** The callback handed to [setTimeout]. *)
Definition onReconnectTimer : Handler unit :=
  logger Reconnecting ;;
  setupDeepgram.

(** The Close listener: the reconnect is scheduled whatever the state of
    the client. *)
Definition onDeepgramClose : Handler unit :=
  logger DeepgramClosed ;;
  assign (set_isDeepgramConnected false) ;;
  sendToClient "status" (lit "Disconnected") ;;
  setTimeout 5000.

Definition onDeepgramRawError (message : jsstring) : Handler unit :=
  logger (UnhandledDeepgramError message).

Definition upstreamWritable : Handler bool :=
  connected <- read (fun w => isDeepgramConnected (vars w)) ;;
  if connected then
    r <- getReadyState ;;
    ret (isOpen r)
  else ret false.

Definition onMicData (now : Z) (data : list N) : Handler unit :=
  writable <- upstreamWritable ;;
  if writable then
    dgSend data ;;
    total <- read (fun w => totalAudioBytesSent (vars w)) ;;
    assign (set_totalAudioBytesSent (addAssign total (JNum (Z.of_nat (length data))))) ;;
    last <- read (fun w => lastAudioSentTimestamp (vars w)) ;;
    if 5000 <=? now - last then
      total' <- read (fun w => totalAudioBytesSent (vars w)) ;;
      logger (SentTotal total') ;;
      assign (set_lastAudioSentTimestamp now)
    else ret tt
  else
    v <- read (fun w => deepgramConnection (vars w)) ;;
    st <- match v with
          | Some _ => r <- getReadyState ;; ret (Some r)
          | None => ret None
          end ;;
    connected <- read (fun w => isDeepgramConnected (vars w)) ;;
    logger (MicNotOpen st connected) ;;
    if negb connected then
      logger Reconnecting ;;
      setupDeepgram
    else ret tt.

Definition onMicError (message : jsstring) : Handler unit :=
  logger (MicError message) ;;
  sendToClient "error" (lit "Microphone error occurred").

Definition micStop (m : nat) : Handler unit :=
  update (withMicrophones (alter (fun _ => false) m)) ;;
  perform (MicStop m).

Definition onClose : Handler unit :=
  logger WebSocketClosed ;;
  mic <- read (fun w => micInstance (vars w)) ;;
  match mic with
  | Some m => micStop m ;; logger MicStopped
  | None => ret tt
  end ;;
  conn <- read (fun w => deepgramConnection (vars w)) ;;
  match conn with
  | Some _ => finish ;; logger DeepgramFinished
  | None => ret tt
  end.

Definition onError (message : jsstring) : Handler unit :=
  logger (WebSocketError message).

Definition onConnection : Handler unit :=
  logger NewConnection ;;
  sendToClient "debug" (lit "New WebSocket connection established") ;;
  setupDeepgram.

(** The events of this server; it has no message handler, so client
    messages change nothing. *)
Inductive event : Type :=
| WsClosing
| WsClose
| WsError (message : jsstring)
| DeepgramOpen (c : nat)
| DeepgramTranscript (c : nat) (transcript : jsstring)
| DeepgramErrorEvent (c : nat) (message : jsstring)
| DeepgramRawError (c : nat) (message : jsstring)
| DeepgramClose (c : nat)
| MicData (m : nat) (now : Z) (data : list N)
| MicErrorEvent (m : nat) (message : jsstring)
| TimerFires.

Definition runHandler (h : Handler unit) (w : world) : world * list effect :=
  match h w with
  | (Ok _, w', l) => (w', l)
  | (Throw e, w', l) => (w', l ++ [Logger (UncaughtException e)])
  end.

Fixpoint times (n : nat) (h : Handler unit) : Handler unit :=
  match n with
  | O => ret tt
  | S n' => h ;; times n' h
  end.

Definition step (w : world) (e : event) : option (world * list effect) :=
  match e with
  | WsClosing =>
      if isOpen (wsReadyState w) then Some (withWs CLOSING w, []) else None
  | WsClose =>
      if notClosed (wsReadyState w) then Some (runHandler onClose (withWs CLOSED w))
      else None
  | WsError message =>
      if notClosed (wsReadyState w) then Some (runHandler (onError message) w)
      else None
  | DeepgramOpen c =>
      match connections w !! c with
      | Some k =>
          match readyState k with
          | CONNECTING =>
              Some (runHandler onDeepgramOpen
                      (withConnections (alter (setReadyState OPEN) c) w))
          | _ => None
          end
      | None => None
      end
  | DeepgramTranscript c transcript =>
      match connections w !! c with
      | Some k =>
          if isOpen (readyState k)
          then Some (runHandler (times (transcriptListeners k) (onTranscript transcript)) w)
          else None
      | None => None
      end
  | DeepgramErrorEvent c message =>
      match connections w !! c with
      | Some k =>
          if notClosed (readyState k) then Some (runHandler (onDeepgramError message) w)
          else None
      | None => None
      end
  | DeepgramRawError c message =>
      match connections w !! c with
      | Some k =>
          if notClosed (readyState k) then Some (runHandler (onDeepgramRawError message) w)
          else None
      | None => None
      end
  | DeepgramClose c =>
      match connections w !! c with
      | Some k =>
          if notClosed (readyState k)
          then Some (runHandler onDeepgramClose
                       (withConnections (alter (setReadyState CLOSED) c) w))
          else None
      | None => None
      end
  | MicData m now data =>
      match microphones w !! m with
      | Some true => Some (runHandler (onMicData now data) w)
      | _ => None
      end
  | MicErrorEvent m message =>
      match microphones w !! m with
      | Some _ => Some (runHandler (onMicError message) w)
      | None => None
      end
  | TimerFires =>
      match timers w with
      | S n => Some (runHandler onReconnectTimer (withTimers (fun _ => n) w))
      | O => None
      end
  end.

Fixpoint run (w : world) (es : list event) : option (world * list effect) :=
  match es with
  | [] => Some (w, [])
  | e :: r =>
      match step w e with
      | Some (w1, l1) =>
          match run w1 r with
          | Some (w2, l2) => Some (w2, l1 ++ l2)
          | None => None
          end
      | None => None
      end
  end.

Definition initialSession : session :=
  {| deepgramConnection := None; micInstance := None;
     isDeepgramConnected := false;
     totalAudioBytesSent := Exact 0; lastAudioSentTimestamp := 0 |}.

Definition emptyWorld : world :=
  {| vars := initialSession; wsReadyState := OPEN; connections := [];
     microphones := []; timers := 0%nat |}.

Definition start : world := fst (runHandler onConnection emptyWorld).

(** A frame written to the client socket. *)
Definition isFrame (e : effect) : bool :=
  match e with Client (NoTranslation.WsSend _ _) => true | _ => false end.

Definition isSetTimeout (e : effect) : bool :=
  match e with SetTimeout _ => true | _ => false end.

Definition isDgListen (e : effect) : bool :=
  match e with DgListen _ => true | _ => false end.

Definition isMicStart (e : effect) : bool :=
  match e with MicStart _ => true | _ => false end.

Definition isMicStop (e : effect) : bool :=
  match e with MicStop _ => true | _ => false end.

Definition isDgSend (e : effect) : bool :=
  match e with DgSend _ _ => true | _ => false end.

Definition isDgFinish (e : effect) : bool :=
  match e with DgFinish _ => true | _ => false end.

(** The microphone [m] delivers the chunks, each with the time of its
    arrival. *)
Definition micChunks (m : nat) (chunks : list (Z * list N)) : list event :=
  map (fun c => MicData m (fst c) (snd c)) chunks.

(** The connection made last, [c], has not closed yet: it is connecting,
    open or closing. *)
Definition pending (c : nat) (w : world) : Prop :=
  length (connections w) = S c
  /\ exists k, connections w !! c = Some k /\ readyState k <> CLOSED.

(** The connection made last closes and the reconnect timer fires, [n]
    times. *)
Fixpoint outage (c n : nat) : list event :=
  match n with
  | O => []
  | S n' => DeepgramClose c :: TimerFires :: outage (S c) n'
  end.

(** [post], as for the translating server. *)
Definition post {A : Type} (h : Handler A) (w : world)
    (Q : result A -> world -> list effect -> Prop) : Prop :=
  match h w with
  | (r, w', l) => Q r w' l
  end.

Definition uncaught {A : Type} (r : result A) : list effect :=
  match r with
  | Ok _ => []
  | Throw e => [Logger (UncaughtException e)]
  end.

End PlainServer.

(** * Properties *)

(** ** Strings *)

Lemma trimStart_nil (s : jsstring) : trimStart s = [] <-> blank s = true.
Proof.
  induction s as [|c r IH]; simpl.
  - split; reflexivity.
  - destruct (isWhiteSpace c); simpl.
    + exact IH.
    + split; discriminate.
Qed.

Lemma trimStart_head (s : jsstring) (c : N) (r : jsstring) :
  trimStart s = c :: r -> isWhiteSpace c = false.
Proof.
  induction s as [|d t IH]; simpl; [discriminate|].
  destruct (isWhiteSpace d) eqn:E; [exact IH|].
  intros H. injection H as -> _. exact E.
Qed.

Lemma blank_app (s t : jsstring) : blank (s ++ t) = blank s && blank t.
Proof. unfold blank. apply forallb_app. Qed.

Lemma trim_nil (s : jsstring) : trim s = [] <-> blank s = true.
Proof.
  unfold trim, trimEnd. split.
  - intros H. apply trimStart_nil.
    destruct (trimStart s) as [|c r] eqn:E; [reflexivity|exfalso].
    apply trimStart_head in E.
    assert (Hn : trimStart (rev (c :: r)) = []).
    { destruct (trimStart (rev (c :: r))) as [|x y]; [reflexivity|].
      simpl in H. destruct (rev y); discriminate. }
    apply trimStart_nil in Hn. simpl in Hn. rewrite blank_app in Hn.
    apply andb_true_iff in Hn as [_ Hn]. simpl in Hn. rewrite E in Hn.
    discriminate.
  - intros H. apply trimStart_nil in H. rewrite H. reflexivity.
Qed.

(** The test of the Transcript listener accepts exactly the transcripts that
    have a character which is not white space. *)
Lemma nonEmptyTranscript_blank (s : jsstring) : nonEmptyTranscript s = negb (blank s).
Proof.
  unfold nonEmptyTranscript.
  destruct (blank s) eqn:B.
  - apply trim_nil in B. rewrite B. simpl. apply andb_false_r.
  - destruct s as [|c r]; [discriminate|]. simpl isEmptyString at 1.
    destruct (trim (c :: r)) as [|x y] eqn:T; [|reflexivity].
    apply trim_nil in T. congruence.
Qed.

(** ** Rules of the calculus *)

Section Calculus.
Context {A B : Type}.
Implicit Types (w : world) (l : list effect).

Lemma post_ret (a : A) w Q : Q (Ok a) w [] -> post (ret a) w Q.
Proof. exact id. Qed.

Lemma post_throw (e : exn) w (Q : result A -> world -> list effect -> Prop) :
  Q (Throw e) w [] -> post (throw e) w Q.
Proof. exact id. Qed.

Lemma post_liftResult (r : result A) w Q : Q r w [] -> post (liftResult r) w Q.
Proof. exact id. Qed.

Lemma post_read (f : world -> A) w Q : Q (Ok (f w)) w [] -> post (read f) w Q.
Proof. exact id. Qed.

Lemma post_bind (m : M A) (k : A -> M B) w Q :
  post m w (fun r w1 l1 =>
    match r with
    | Ok a => post (k a) w1 (fun r2 w2 l2 => Q r2 w2 (l1 ++ l2))
    | Throw e => Q (Throw e) w1 l1
    end) ->
  post (bind m k) w Q.
Proof.
  unfold post, bind. destruct (m w) as [[[a|e] w1] l1]; [|exact id].
  destruct (k a w1) as [[r2 w2] l2]. exact id.
Qed.

Lemma post_mono (m : M A) w (Q Q' : result A -> world -> list effect -> Prop) :
  (forall r w' l, Q r w' l -> Q' r w' l) -> post m w Q -> post m w Q'.
Proof. unfold post. destruct (m w) as [[r w'] l]. auto. Qed.

Lemma post_eq (m : M A) w Q : post m w Q <-> Q (fst (fst (m w))) (snd (fst (m w))) (snd (m w)).
Proof. unfold post. destruct (m w) as [[r w'] l]. reflexivity. Qed.
End Calculus.

Lemma post_update (f : world -> world) (w : world) Q :
  Q (Ok tt) (f w) [] -> post (update f) w Q.
Proof. exact id. Qed.

Lemma post_perform (e : effect) (w : world) Q : Q (Ok tt) w [e] -> post (perform e) w Q.
Proof. exact id. Qed.

Lemma runHandler_post (h : M unit) (w : world) (Q : world -> list effect -> Prop) :
  post h w (fun r w1 l1 => Q w1 (l1 ++ uncaught r)) ->
  forall w' l, runHandler h w = (w', l) -> Q w' l.
Proof.
  unfold post, runHandler. destruct (h w) as [[[[]|e] w1] l1]; simpl.
  - rewrite app_nil_r. intros H w' l [= <- <-]. exact H.
  - intros H w' l [= <- <-]. exact H.
Qed.

Create HintDb handlers.
#[local] Hint Unfold wsSend console sendDebugToClient listenLive theConnection
  finish getReadyState dgSend addTranscriptListener setTimeout translateText
  setupDeepgram setupMicrophone onTranscript onTranslated onTranslationFailed
  onDeepgramOpen onDeepgramError onDeepgramClose onReconnectTimer
  onDeepgramRawError upstreamWritable countAndLog onMicData onMicError
  onMessage micStop onClose onError onConnection assign : handlers.

Ltac wp_simpl :=
  cbv beta iota;
  cbn [vars wsReadyState connections microphones timers promises
       withVars withWs withConnections withMicrophones withTimers withPromises
       deepgramConnection micInstance isDeepgramConnected totalAudioBytesSent
       lastAudioSentTimestamp currentLanguage isReceivingAudio isMuted
       isWebSocketClosed
       set_deepgramConnection set_micInstance set_isDeepgramConnected
       set_totalAudioBytesSent set_lastAudioSentTimestamp set_currentLanguage
       set_isReceivingAudio set_isMuted set_isWebSocketClosed
       isOpen notClosed negb andb orb].

Ltac wp_known :=
  repeat match goal with
    | H : ?b = true |- context [?b] => rewrite H
    | H : ?b = false |- context [?b] => rewrite H
    | H : ?b = Some _ |- context [?b] => rewrite H
    | H : ?b = None |- context [?b] => rewrite H
    | H : wsReadyState ?w = _ |- context [wsReadyState ?w] => rewrite H
    end.

Ltac wp_step :=
  lazymatch goal with
  | |- post (bind _ _) _ _ => apply post_bind
  | |- post (ret _) _ _ => apply post_ret
  | |- post (throw _) _ _ => apply post_throw
  | |- post (liftResult _) _ _ => apply post_liftResult
  | |- post (read _) _ _ => apply post_read
  | |- post (update _) _ _ => apply post_update
  | |- post (perform _) _ _ => apply post_perform
  | |- post (if ?b then _ else _) _ _ => destruct b eqn:?
  | |- post (match ?x with _ => _ end) _ _ => destruct x eqn:?
  | |- post _ _ _ => progress autounfold with handlers
  | |- match ?r with Ok _ => _ | Throw _ => _ end => destruct r eqn:?
  end; wp_simpl; wp_known; wp_simpl.

(** Symbolic execution of a handler: one goal per path. *)
Ltac wp := wp_simpl; wp_known; wp_simpl; repeat wp_step.

(** From a turn of the event loop to the handler it runs. *)
Ltac enter H :=
  revert H;
  lazymatch goal with
  | |- Some (runHandler ?h ?w0) = Some (?w', ?l) -> _ =>
      intros H; injection H as H; revert w' l H; apply runHandler_post
  end.

(** ** Malformed messages *)

Lemma onMessage_malformed (w : world) (now : Z) :
  onMessage now None w = (Throw SyntaxError, w, []).
Proof. reflexivity. Qed.

(** C9 (as stated) fails at the start of a session: on a text that is not
    JSON the message handler throws. *)
Lemma malformed_message_throws : ~ returnsNormally (onMessage 0 None) start.
Proof. intros [a H]. discriminate H. Qed.

(** C9 (amended).  On a message that is not JSON the handler throws the
    SyntaxError of JSON.parse and catches nothing; it has changed no
    variable and sent nothing by then.  The process-level
    'uncaughtException' handler prints the error, and the turn leaves the
    world, with the client socket still open, as it was. *)
Theorem malformed_message_left_to_process (w : world) (now : Z) :
  wsReadyState w = OPEN ->
  ~ returnsNormally (onMessage now None) w
  /\ onMessage now None w = (Throw SyntaxError, w, [])
  /\ step w (WsMessage now None) = Some (w, [Console (LUncaughtException SyntaxError)]).
Proof.
  intros Hopen. split; [|split].
  - intros [a H]. discriminate H.
  - reflexivity.
  - unfold step. rewrite Hopen. reflexivity.
Qed.

Lemma malformed_message_left_to_process_witness :
  wsReadyState start = OPEN
  /\ step start (WsMessage 7 None) = Some (start, [Console (LUncaughtException SyntaxError)]).
Proof.
  split; [reflexivity|].
  apply (malformed_message_left_to_process start 7). reflexivity.
Defined.

(** ** The upstream stream closes *)

Lemma clientClosing_world :
  run start [DeepgramOpen 0%nat; WsClosing] = Some (clientClosing, snd (default (start, []) (run start [DeepgramOpen 0%nat; WsClosing]))).
Proof. vm_compute. reflexivity. Qed.

Lemma clientClosing_reachable : reachable clientClosing.
Proof. eexists _, _. exact clientClosing_world. Qed.

(** C6 (as stated) fails while the client socket is CLOSING: the client link
    is not closed (the flag is false, the ready state is not CLOSED), yet the
    Close listener schedules no reconnect. *)
Lemma closing_socket_gets_no_reconnect :
  reachable clientClosing /\ ~ reconnectIffClientNotClosed clientClosing 0.
Proof.
  split; [exact clientClosing_reachable|].
  intros H.
  destruct (step clientClosing (DeepgramClose 0%nat)) as [[w' l]|] eqn:E;
    [|vm_compute in E; discriminate E].
  destruct (H w' l E) as [Hto _].
  vm_compute in E. injection E as <- <-.
  assert (Hl : @nil effect = [SetTimeout 5000]).
  { apply Hto. split; [reflexivity|discriminate]. }
  discriminate Hl.
Qed.

(** C6 (amended).  When an upstream connection closes, the Close listener
    sets [isDeepgramConnected] to false, calls [ws.send] once, with the
    status frame 'Disconnected', and schedules exactly one reconnect, 5000 ms
    later, if and only if [isWebSocketClosed] is false and the client socket
    is OPEN; on a socket that is CLOSING or CLOSED it schedules none. *)
Theorem upstream_close_schedules_reconnect (w : world) (c : nat) (w' : world) (l : list effect) :
  step w (DeepgramClose c) = Some (w', l) ->
  isDeepgramConnected (vars w') = false
  /\ List.filter (fun e => isWsSend e && negb (isDebugOrError e)) l
     = [WsSend (wsReadyState w) (FStatus Disconnected)]
  /\ (isWebSocketClosed (vars w) = false /\ wsReadyState w = OPEN
      <-> List.filter isSetTimeout l = [SetTimeout 5000])
  /\ (~ (isWebSocketClosed (vars w) = false /\ wsReadyState w = OPEN)
      <-> List.filter isSetTimeout l = [])
  /\ timers w' = (timers w + length (List.filter isSetTimeout l))%nat.
Proof.
  intros H. unfold step in H.
  destruct (connections w !! c) as [k|]; [|discriminate].
  destruct (notClosed (readyState k)); [|discriminate].
  enter H. wp.
  all: destruct (wsReadyState w); try discriminate.
  all: destruct (isWebSocketClosed (vars w)); try discriminate.
  all: simpl; repeat split; intros; try tauto; try discriminate; try lia.
  all: try (intros [? ?]; discriminate).
  all: match goal with H : _ /\ _ |- _ => destruct H; discriminate end.
Qed.

Lemma upstream_close_schedules_reconnect_witness :
  exists w' l,
    step streaming (DeepgramClose 0%nat) = Some (w', l)
    /\ isDeepgramConnected (vars w') = false
    /\ List.filter isSetTimeout l = [SetTimeout 5000]
    /\ timers w' = 1%nat.
Proof.
  destruct (step streaming (DeepgramClose 0%nat)) as [[w' l]|] eqn:E;
    [|vm_compute in E; discriminate E].
  exists w', l. split; [reflexivity|].
  destruct (upstream_close_schedules_reconnect streaming 0 w' l E)
    as (Hc & _ & Hiff & _ & Ht).
  assert (Hl : List.filter isSetTimeout l = [SetTimeout 5000]).
  { apply Hiff. split; reflexivity. }
  split; [exact Hc|]. split; [exact Hl|].
  rewrite Ht, Hl. reflexivity.
Defined.

(** ** The client disconnects *)

Lemma alter_idem {A : Type} (f : A -> A) (i : nat) (l : list A) :
  (forall x, f (f x) = f x) -> alter f i (alter f i l) = alter f i l.
Proof.
  intros Hf. revert i. induction l as [|x r IH]; intros [|i]; simpl; try reflexivity.
  - rewrite Hf. reflexivity.
  - f_equal. apply IH.
Qed.

Lemma markFinished_idem (k : connection) : markFinished (markFinished k) = markFinished k.
Proof. reflexivity. Qed.

Lemma streaming_world :
  run start [DeepgramOpen 0%nat] = Some (streaming, snd (default (start, []) (run start [DeepgramOpen 0%nat]))).
Proof. vm_compute. reflexivity. Qed.

Lemma streaming_reachable : reachable streaming.
Proof. eexists _, _. exact streaming_world. Qed.

(** C8 (as stated) fails for a session that was streaming: the second run
    of the disconnect handler stops the microphone and finishes the
    upstream stream again. *)
Lemma second_close_releases_again :
  reachable streaming /\ ~ secondCloseReleasesNothing streaming.
Proof.
  split; [exact streaming_reachable|].
  intros [H _]. vm_compute in H. discriminate H.
Qed.

(** C8 (amended).  Running the disconnect handler twice throws nothing, and
    the second run leaves the session, and the objects it refers to, as the
    first run left them.  But [micInstance] and [deepgramConnection] are never
    cleared, so the second run calls [micInstance.stop()] and
    [deepgramConnection.finish()] again on every handle that is set; it
    releases nothing only in a session that never had either. *)
Theorem second_close_changes_nothing_but_repeats_calls (w : world) :
  let w1 := fst (runHandler onClose w) in
  returnsNormally onClose w
  /\ returnsNormally onClose w1
  /\ fst (runHandler onClose w1) = w1
  /\ List.filter isRelease (snd (runHandler onClose w1))
     = match micInstance (vars w) with Some m => [MicStop m] | None => [] end
       ++ match deepgramConnection (vars w) with Some c => [DgFinish c] | None => [] end.
Proof.
  destruct w as [[dc mi co to la cu re mu cl] r cs ms ts ps].
  destruct dc as [c|], mi as [m|], r; cbv -[alter].
  all: repeat split; try (eexists; reflexivity).
  all: repeat rewrite (alter_idem markFinished) by reflexivity.
  all: repeat rewrite (alter_idem (fun _ : bool => false)) by reflexivity.
  all: reflexivity.
Qed.

(** ** Invariants along handlers and turns *)

Lemma times_respects (I : world -> Prop) (P : effect -> Prop) (h : M unit) (n : nat) :
  respects I P h -> respects I P (times n h).
Proof.
  intros Hh. induction n as [|n IH]; intros w Hw; simpl.
  - split; [exact Hw|constructor].
  - apply post_bind. specialize (Hh w Hw). revert Hh. apply post_mono.
    intros [[]|e] w1 l1 [HI HP].
    + simpl in HP. rewrite app_nil_r in HP.
      specialize (IH w1 HI). revert IH. apply post_mono.
      intros r2 w2 l2 [HI2 HP2]. split; [exact HI2|].
      rewrite <- app_assoc. apply Forall_app. split; assumption.
    + split; assumption.
Qed.

Lemma runHandler_respects (I : world -> Prop) (P : effect -> Prop) (h : M unit)
    (w w' : world) (l : list effect) :
  respects I P h -> I w -> runHandler h w = (w', l) -> I w' /\ Forall P l.
Proof.
  intros Hh Hw. revert w' l. apply runHandler_post. exact (Hh w Hw).
Qed.

(** ** Blank transcripts *)

Lemma onTranscript_blank (T : jsstring) (w0 : world) :
  blank T = true -> respects (fun w => w = w0) isDebugFrame (onTranscript T).
Proof.
  intros HT w ->. pose proof (nonEmptyTranscript_blank T) as HN.
  rewrite HT in HN. simpl in HN.
  wp; try congruence.
  all: split; [reflexivity|]; simpl; repeat constructor.
Qed.

Lemma debug_frames_only (l : list effect) :
  Forall isDebugFrame l ->
  List.filter isTranscriptFrame l = [] /\ List.filter isTranslateCall l = [].
Proof.
  induction 1 as [|e l He _ [IH1 IH2]]; [split; reflexivity|].
  destruct e as [| r f | | | | | | | | |]; try contradiction.
  destruct f; try contradiction. simpl. split; assumption.
Qed.

(** C4 (as stated) fails in the variant without translation: a transcript
    that is one space is sent to the client as a 'transcript' frame. *)
Lemma whitespace_transcript_forwarded_without_translation :
  ~ blankDropped OPEN [32%N].
Proof.
  intros H. specialize (H eq_refl). vm_compute in H. discriminate H.
Qed.

(** C4 (amended).  In the translating server a transcript that is empty or
    consists only of white space is dropped: the turn sends debug frames
    only, so no 'transcript' frame, makes no translation call and leaves the
    world, with its pending translations, unchanged.  The variant without
    translation drops the empty transcript only: a transcript of white
    space is sent to an open client as a 'transcript' frame. *)
Theorem blank_transcript_dropped (T : jsstring) :
  blank T = true ->
  (forall (w : world) (c : nat) (w' : world) (l : list effect),
     step w (DeepgramTranscript c T) = Some (w', l) ->
     w' = w /\ Forall isDebugFrame l
     /\ List.filter isTranscriptFrame l = [] /\ List.filter isTranslateCall l = [])
  /\ (forall ws : ready_state,
        List.filter NoTranslation.isTranscriptFrame (NoTranslation.onTranscript ws T)
        = if isEmptyString T then []
          else if isOpen ws then [NoTranslation.WsSend (lit "transcript") T] else []).
Proof.
  intros HT. split.
  - intros w c w' l H. unfold step in H.
    destruct (connections w !! c) as [k|]; [|discriminate].
    destruct (isOpen (readyState k)); [|discriminate].
    injection H as H.
    apply (runHandler_respects (fun x => x = w) isDebugFrame) in H;
      [|apply times_respects, onTranscript_blank, HT|reflexivity].
    destruct H as [-> Hl]. split; [reflexivity|]. split; [exact Hl|].
    apply debug_frames_only, Hl.
  - intros ws. unfold NoTranslation.onTranscript, NoTranslation.sendToClient.
    destruct T as [|c r]; [reflexivity|]. simpl. destruct (isOpen ws); reflexivity.
Qed.

Lemma blank_transcript_dropped_witness :
  blank [32%N; 9%N] = true
  /\ (forall w' l, step streaming (DeepgramTranscript 0%nat [32%N; 9%N]) = Some (w', l) ->
      w' = streaming /\ List.filter isTranscriptFrame l = []
      /\ List.filter isTranslateCall l = []).
Proof.
  split; [reflexivity|].
  intros w' l H.
  destruct (blank_transcript_dropped [32%N; 9%N] eq_refl) as [Hs _].
  destruct (Hs streaming 0%nat w' l H) as (H1 & _ & H2 & H3).
  repeat split; assumption.
Defined.

(** ** The Transcript listener in closed form *)

Lemma sendDebugToClient_run (d : debug_text) (w : world) :
  sendDebugToClient d w = (Ok tt, w, debugLog w d).
Proof.
  unfold sendDebugToClient, debugLog, wsSend, bind, read, perform, ret.
  destruct (wsReadyState w) eqn:E; simpl; rewrite ?E; reflexivity.
Qed.

Lemma onTranscript_run (T : jsstring) (w : world) :
  onTranscript T w =
  (Ok tt,
   (if nonEmptyTranscript T then withPromises (fun ps => ps ++ [Pending T]) w else w),
   debugLog w (DRawTranscript T) ++ debugLog w (DExtractedTranscript T)
   ++ (if nonEmptyTranscript T
       then debugLog w (DNonEmptyTranscript T)
            ++ [TranslateText (length (promises w)) T (currentLanguage (vars w))]
       else debugLog w DEmptyTranscript)).
Proof.
  unfold onTranscript, bind. rewrite !sendDebugToClient_run.
  destruct (nonEmptyTranscript T).
  - rewrite sendDebugToClient_run. reflexivity.
  - rewrite sendDebugToClient_run. reflexivity.
Qed.





(** ** A translation fails *)

Lemma closedWhileTranslating_world :
  run start [DeepgramOpen 0%nat; DeepgramTranscript 0%nat (lit "hello"); WsClose]
  = Some (closedWhileTranslating,
          snd (default (start, [])
                 (run start [DeepgramOpen 0%nat; DeepgramTranscript 0%nat (lit "hello"); WsClose]))).
Proof. vm_compute. reflexivity. Qed.

Lemma closedWhileTranslating_reachable : reachable closedWhileTranslating.
Proof. eexists _, _. exact closedWhileTranslating_world. Qed.




(** ** The language of the next transcript *)

(** Case analysis on a turn of the event loop: one goal per enabled event,
    with the handler still to run. *)
Ltac turn H :=
  unfold step in H;
  repeat match type of H with
    | context [match ?x with _ => _ end] => destruct x eqn:?
    end; try discriminate H.







(** ** After the client has gone *)

Lemma quiet_filters (l : list effect) :
  Forall quiet l ->
  List.filter isDelivered l = [] /\ List.filter isUpstreamCall l = []
  /\ List.filter isSetTimeout l = [].
Proof.
  induction 1 as [|e l (H1 & H2 & H3) _ (IH1 & IH2 & IH3)]; simpl.
  - repeat split.
  - rewrite H1, H2, H3. repeat split; assumption.
Qed.

Ltac quiet_log :=
  simpl;
  repeat first [apply List.Forall_nil | apply List.Forall_cons; [repeat split|]].

Lemma onTranscript_gone (n : nat) (T : jsstring) : respects (gone n) quiet (onTranscript T).
Proof.
  intros w (Hc & Hr & Hd & Hn). rewrite post_eq, onTranscript_run.
  unfold debugLog. rewrite Hr. simpl.
  destruct (nonEmptyTranscript T); (split; [repeat split; assumption|quiet_log]).
Qed.

Lemma step_gone (n : nat) (w : world) (e : event) (w' : world) (l : list effect) :
  gone n w -> step w e = Some (w', l) -> gone n w' /\ Forall quiet l.
Proof.
  intros (Hc & Hr & Hd & Hn) H. destruct e; turn H.
  all: try (match goal with E : isOpen (wsReadyState _) = true |- _ =>
              rewrite Hr in E; discriminate E end).
  all: try (match goal with E : notClosed (wsReadyState _) = true |- _ =>
              rewrite Hr in E; discriminate E end).
  all: try (enter H; wp;
            (split; [unfold gone; simpl; rewrite ?length_alter; repeat split; assumption
                    |quiet_log])).
  injection H as H.
  apply (runHandler_respects (gone n) quiet) in H; [exact H| |repeat split; assumption].
  apply times_respects, onTranscript_gone.
Qed.

Lemma run_gone (n : nat) (es : list event) (w w' : world) (l : list effect) :
  gone n w -> run w es = Some (w', l) -> gone n w' /\ Forall quiet l.
Proof.
  revert w l. induction es as [|e es IH]; intros w l Hw H; simpl in H.
  - injection H as <- <-. split; [exact Hw|constructor].
  - destruct (step w e) as [[w1 l1]|] eqn:E1; [|discriminate].
    destruct (run w1 es) as [[w2 l2]|] eqn:E2; [|discriminate].
    injection H as <- <-.
    destruct (step_gone n w e w1 l1 Hw E1) as [Hw1 Hl1].
    destruct (IH w1 l2 Hw1 E2) as [Hw2 Hl2].
    split; [exact Hw2|]. apply Forall_app. split; assumption.
Qed.

Lemma run_cons (w : world) (e : event) (es : list event) :
  run w (e :: es)
  = match step w e with
    | Some (w1, l1) =>
        match run w1 es with
        | Some (w2, l2) => Some (w2, l1 ++ l2)
        | None => None
        end
    | None => None
    end.
Proof. reflexivity. Qed.

Lemma run_invariant (I : world -> Prop) :
  (forall w e w' l, I w -> step w e = Some (w', l) -> I w') ->
  forall es w w' l, I w -> run w es = Some (w', l) -> I w'.
Proof.
  intros Hstep. induction es as [|e es IH]; intros w w' l Hw H; simpl in H.
  - injection H as <- _. exact Hw.
  - destruct (step w e) as [[w1 l1]|] eqn:E1; [|discriminate].
    destruct (run w1 es) as [[w2 l2]|] eqn:E2; [|discriminate].
    injection H as <- _. eapply IH; [|exact E2]. eapply Hstep; eassumption.
Qed.

Lemma onTranscript_hasConnection (T : jsstring) :
  respects hasConnection (fun _ => True) (onTranscript T).
Proof.
  intros w Hw. rewrite post_eq, onTranscript_run. simpl.
  split; [destruct (nonEmptyTranscript T); exact Hw|].
  apply Forall_forall. intros; exact I.
Qed.

Lemma step_hasConnection (w : world) (e : event) (w' : world) (l : list effect) :
  hasConnection w -> step w e = Some (w', l) -> hasConnection w'.
Proof.
  unfold hasConnection. intros Hw H. destruct e; turn H.
  all: try (enter H; wp; solve [assumption | discriminate | congruence]).
  - injection H as <- _. exact Hw.
  - injection H as H.
    apply (runHandler_respects hasConnection (fun _ => True)) in H; [apply H| |exact Hw].
    apply times_respects, onTranscript_hasConnection.
Qed.

Lemma reachable_hasConnection (w : world) : reachable w -> hasConnection w.
Proof.
  intros (es & l & H).
  apply (run_invariant hasConnection step_hasConnection es start w l); [|exact H].
  discriminate.
Qed.

Lemma onClose_gone (w : world) (w' : world) (l : list effect) :
  hasConnection w -> step w WsClose = Some (w', l) ->
  gone (length (connections w)) w' /\ Forall quiet l.
Proof.
  unfold hasConnection. intros Hw H. turn H. enter H. wp; try congruence.
  all: split; [unfold gone; simpl; rewrite ?length_alter; repeat split|quiet_log].
Qed.

(** C7.  From the turn in which the client socket closes onwards, whatever
    events follow (a reconnect timer that was pending, a translation that
    was in flight, microphone data, upstream events): no frame is
    transmitted to the client, so no 'transcript' frame; no upstream
    connection is made, written to or listened to, no microphone is started
    and no timer is armed; the session stays flagged closed and
    disconnected from upstream.  A reconnect timer that fires then does
    nothing at all. *)
Theorem nothing_after_disconnect (w : world) (es : list event) (w' : world) (l : list effect) :
  reachable w ->
  run w (WsClose :: es) = Some (w', l) ->
  List.filter isDelivered l = []
  /\ List.filter isUpstreamCall l = []
  /\ List.filter isSetTimeout l = []
  /\ isWebSocketClosed (vars w') = true
  /\ isDeepgramConnected (vars w') = false
  /\ length (connections w') = length (connections w)
  /\ (forall w'' l'', step w' TimerFires = Some (w'', l'') ->
      l'' = [] /\ w'' = withTimers pred w')
  /\ (forall k text w'' l'', step w' (TranslationResolves k text) = Some (w'', l'') ->
      List.filter isDelivered l'' = [] /\ vars w'' = vars w').
Proof.
  intros Hre H. rewrite run_cons in H.
  destruct (step w WsClose) as [[w1 l1]|] eqn:E1; [|discriminate].
  destruct (run w1 es) as [[w2 l2]|] eqn:E2; [|discriminate].
  injection H as <- <-.
  destruct (onClose_gone w w1 l1 (reachable_hasConnection w Hre) E1) as [Hg1 Hq1].
  destruct (run_gone _ es w1 w2 l2 Hg1 E2) as [Hg2 Hq2].
  assert (Hq : Forall quiet (l1 ++ l2)) by (apply Forall_app; split; assumption).
  destruct (quiet_filters _ Hq) as (F1 & F2 & F3).
  pose proof Hg2 as (Hc & Hr & Hd & Hn).
  repeat (split; [assumption|]).
  split.
  - intros w'' l'' Ht. unfold step in Ht.
    destruct (timers w2) as [|t] eqn:Et; [discriminate|].
    injection Ht as Ht. revert w'' l'' Ht. apply runHandler_post. wp.
    split; [reflexivity|].
    destruct w2; simpl in *; subst; reflexivity.
  - intros k text w'' l'' Ht.
    split; [apply quiet_filters, (step_gone _ w2 _ w'' l'' Hg2 Ht)|].
    unfold step in Ht. destruct (promises w2 !! k) as [[T|]|]; try discriminate.
    injection Ht as Ht. revert w'' l'' Ht. apply runHandler_post. wp. reflexivity.
Qed.

Lemma nothing_after_disconnect_witness :
  exists w' l,
    run (after [DeepgramOpen 0%nat; DeepgramTranscript 0%nat (lit "hello"); DeepgramClose 0%nat])
        [WsClose; TimerFires; TranslationResolves 0 (lit "konnichiwa")]
    = Some (w', l)
    /\ List.filter isDelivered l = []
    /\ List.filter isUpstreamCall l = []
    /\ length (connections w') = 1%nat.
Proof.
  pose (es0 := [DeepgramOpen 0%nat; DeepgramTranscript 0%nat (lit "hello"); DeepgramClose 0%nat]).
  assert (Hre : reachable (after es0)).
  { exists es0, (snd (default (start, []) (run start es0))). vm_compute. reflexivity. }
  destruct (run (after es0) [WsClose; TimerFires; TranslationResolves 0 (lit "konnichiwa")])
    as [[w' l]|] eqn:E;
    [|vm_compute in E; discriminate E].
  exists w', l. split; [exact E|].
  destruct (nothing_after_disconnect _ _ _ _ Hre E) as (F1 & F2 & _ & _ & _ & Hn & _ & _).
  split; [exact F1|]. split; [exact F2|]. rewrite Hn. reflexivity.
Defined.

(** ** The language label of a transcript frame *)






(** *** Keys that are numbers *)















(** ** The audio gate *)

(** Audio of a client message is sent upstream only when the session is not
    muted and an upstream stream is open. *)
Lemma client_audio_gated (w : world) (now : Z) (message : option jsval) :
  audioGated w (WsMessage now message).
Proof.
  intros Hg w' l H. unfold writable in Hg. turn H. enter H.
  destruct message as [data|]; wp; try reflexivity.
  all: destruct Hg as [Hg|Hg]; [congruence|].
  all: repeat match goal with
              | E : _ = _ |- _ => tryif constr_eq E Hg then fail else rewrite E in Hg
              end.
  all: discriminate Hg.
Qed.

(** Audio of the microphone is sent upstream only when an upstream stream is
    open. *)
Lemma microphone_audio_needs_upstream (w : world) (m : nat) (now : Z) (data : list N)
    (w' : world) (l : list effect) :
  writable w = false ->
  step w (MicData m now data) = Some (w', l) ->
  List.filter isDgSend l = [].
Proof.
  intros Hg H. unfold writable in Hg. turn H. enter H.
  wp; try reflexivity.
  all: repeat match goal with
              | E : _ = _ |- _ => tryif constr_eq E Hg then fail else rewrite E in Hg
              end.
  all: discriminate Hg.
Qed.

Lemma mutedStreaming_world :
  run start [DeepgramOpen 0%nat; WsMessage 0 (Some muteMessage)]
  = Some (mutedStreaming,
          snd (default (start, [])
                 (run start [DeepgramOpen 0%nat; WsMessage 0 (Some muteMessage)]))).
Proof. vm_compute. reflexivity. Qed.

(** C1 fails on the microphone path.  In a session that is streaming and
    has been muted by the client, a chunk captured by the local microphone
    is sent upstream: the microphone handler tests that the upstream stream
    is open and never reads [isMuted]. *)
Theorem microphone_audio_forwarded_while_muted :
  reachable mutedStreaming
  /\ isMuted (vars mutedStreaming) = true
  /\ step mutedStreaming (MicData 0%nat 5 [1%N; 2%N; 3%N])
     = Some (withVars (set_totalAudioBytesSent (Exact 3)) mutedStreaming,
             [DgSend 0%nat (Buf [1%N; 2%N; 3%N])])
  /\ ~ audioGated mutedStreaming (MicData 0%nat 5 [1%N; 2%N; 3%N]).
Proof.
  split; [eexists _, _; exact mutedStreaming_world|].
  split; [reflexivity|].
  split; [vm_compute; reflexivity|].
  intros H.
  specialize (H (or_introl eq_refl) _ _ eq_refl).
  vm_compute in H. discriminate H.
Qed.

(** ** The reconnect race *)

(** C2 fails.  After the upstream stream has dropped, every chunk of the
    microphone that arrives before a new stream has opened makes
    [setupDeepgram] open one more connection: its guard reads
    [isDeepgramConnected], which is false until an Open event.  Two chunks
    give two connections, both of which open; the first of them is no longer
    referenced by the session and is never finished. *)
Theorem reconnect_race_opens_two_streams :
  exists w l,
    run start reconnectRace = Some (w, l)
    /\ ~ atMostOneOpen w
    /\ map (fun k => (readyState k, finishCalled k)) (connections w)
       = [(CLOSED, false); (OPEN, false); (OPEN, false)]
    /\ deepgramConnection (vars w) = Some 2%nat
    /\ List.filter isDgListen l = [DgListen 1; DgListen 2]
    /\ List.filter isRelease l = [].
Proof.
  destruct (run start reconnectRace) as [[w l]|] eqn:E;
    [|vm_compute in E; discriminate E].
  exists w, l. vm_compute in E. injection E as <- <-.
  split; [reflexivity|].
  split; [unfold atMostOneOpen; vm_compute; lia|].
  repeat split.
Qed.

(** ** Scenarios of the specification *)

(** The client connects, the upstream stream opens, the transcript "hello"
    arrives and its translation fulfils: the client receives one
    'transcript' frame, labelled 'Japanese'. *)
Example hello_scenario :
  option_map (fun p => List.filter isTranscriptFrame (snd p))
    (run start [DeepgramOpen 0%nat; DeepgramTranscript 0%nat (lit "hello");
                TranslationResolves 0 (lit "konnichiwa")])
  = Some [WsSend OPEN (FTranscript (lit "hello") (lit "konnichiwa")
                         (VString (lit "Japanese")))].
Proof. vm_compute. reflexivity. Qed.

(** The client sends [mute], then audio: nothing is forwarded; after
    [unmute] the next chunk is. *)
Example mute_scenario :
  option_map (fun p => List.filter isDgSend (snd p))
    (run start [DeepgramOpen 0%nat;
                WsMessage 1 (Some muteMessage);
                WsMessage 2 (Some (audioDataMessage (JStr (lit "abc"))));
                WsMessage 3 (Some (audioDataMessage (JStr (lit "def"))));
                WsMessage 4 (Some unmuteMessage);
                WsMessage 5 (Some (audioDataMessage (JStr (lit "ghi"))))])
  = Some [DgSend 0%nat (Val (JStr (lit "ghi")))].
Proof. vm_compute. reflexivity. Qed.

(** The upstream stream closes: the client is told, and the timer that
    fires later makes a new connection. *)
Example reconnect_scenario :
  option_map (fun p => List.filter (fun e => isSetTimeout e || isDgListen e
                                             || (isWsSend e && negb (isDebugOrError e)))
                         (snd p))
    (run start [DeepgramOpen 0%nat; DeepgramClose 0%nat; TimerFires])
  = Some [WsSend OPEN (FStatus Connected); WsSend OPEN (FStatus Disconnected);
          SetTimeout 5000; DgListen 1].
Proof. vm_compute. reflexivity. Qed.

(** * Properties beyond the claims *)

(** As [enter], for a goal that is itself an implication. *)
Ltac enter_full H :=
  revert H;
  lazymatch goal with
  | |- Some (runHandler ?h ?w0) = Some (?w', ?l) -> _ =>
      intros H; injection H as H; revert w' l H;
      lazymatch goal with
      | |- forall w'' l'', runHandler h w0 = (w'', l'') -> @?Q w'' l'' =>
          apply (runHandler_post h w0 Q)
      end
  end.

(** ** Messages of the client *)

(** A message whose [type] the handler has no branch for, such as the
    [setAudioDevice] the front end sends, is ignored: the turn changes
    nothing and sends nothing, not even a debug frame. *)
Theorem unknown_message_ignored (w : world) (now : Z) (data type : jsval) :
  wsReadyState w = OPEN ->
  member (lit "type") data = Ok type ->
  knownType type = false ->
  step w (WsMessage now (Some data)) = Some (w, []).
Proof.
  intros Hopen Hty Hk. unfold knownType in Hk.
  repeat (apply orb_false_iff in Hk as [Hk ?]).
  unfold step. rewrite Hopen. simpl.
  unfold runHandler, onMessage, bind, ret, liftResult.
  rewrite Hty. simpl.
  repeat match goal with E : isString _ type = false |- _ => rewrite E; clear E end.
  reflexivity.
Qed.

Lemma unknown_message_ignored_witness :
  step streaming (WsMessage 3 (Some (setAudioDeviceMessage (JStr (lit "default")))))
  = Some (streaming, []).
Proof.
  apply (unknown_message_ignored streaming 3
           (setAudioDeviceMessage (JStr (lit "default")))
           (JStr (lit "setAudioDevice"))); reflexivity.
Defined.

Lemma onMessage_flag (w : world) (now : Z) (data : jsval) (name : string) (b : bool)
    (d : debug_text) :
  member (lit "type") data = Ok (JStr (lit name)) ->
  (name = "mute"%string /\ b = true /\ d = DMuted
   \/ name = "unmute"%string /\ b = false /\ d = DUnmuted) ->
  onMessage now (Some data) w = (Ok tt, withVars (set_isMuted b) w, debugLog w d).
Proof.
  intros Hty [(-> & -> & ->)|(-> & -> & ->)];
    unfold onMessage, bind, ret, liftResult, assign, update; rewrite Hty; simpl;
    rewrite sendDebugToClient_run; reflexivity.
Qed.

(** [mute] and [unmute] only flip [isMuted].  A [mute] turn followed by an
    [unmute] turn stops no microphone, finishes, creates and writes to no
    upstream connection and arms no timer; the microphones, the connections
    and every other variable are as before, and a session that was not muted
    is exactly as before. *)
Theorem mute_then_unmute (w w1 w2 : world) (l1 l2 : list effect) (t1 t2 : Z)
    (m1 m2 : jsval) :
  member (lit "type") m1 = Ok (JStr (lit "mute")) ->
  member (lit "type") m2 = Ok (JStr (lit "unmute")) ->
  step w (WsMessage t1 (Some m1)) = Some (w1, l1) ->
  step w1 (WsMessage t2 (Some m2)) = Some (w2, l2) ->
  isMuted (vars w1) = true
  /\ w1 = withVars (set_isMuted true) w
  /\ w2 = withVars (set_isMuted false) w
  /\ (isMuted (vars w) = false -> w2 = w)
  /\ microphones w2 = microphones w
  /\ connections w2 = connections w
  /\ l1 ++ l2 = debugLog w DMuted ++ debugLog w DUnmuted.
Proof.
  intros H1 H2 S1 S2. unfold step in S1, S2.
  destruct (isOpen (wsReadyState w)); [|discriminate].
  unfold runHandler in S1.
  rewrite (onMessage_flag w t1 m1 "mute" true DMuted H1) in S1 by (left; auto).
  injection S1 as <- <-.
  cbn [wsReadyState withVars] in S2.
  destruct (isOpen (wsReadyState w)) eqn:Ho; [|discriminate].
  unfold runHandler in S2.
  rewrite (onMessage_flag _ t2 m2 "unmute" false DUnmuted H2) in S2 by (right; auto).
  injection S2 as <- <-.
  split; [reflexivity|]. split; [reflexivity|]. split; [reflexivity|].
  split.
  { intros Hm. destruct w as [[dc mi co to la cu re mu cl] r cs ms ts ps].
    simpl in Hm. subst mu. reflexivity. }
  split; [reflexivity|]. split; [reflexivity|].
  unfold debugLog. cbn [wsReadyState withVars]. reflexivity.
Qed.

Lemma mute_then_unmute_witness :
  exists w1 l1 w2 l2,
    step streaming (WsMessage 1 (Some muteMessage)) = Some (w1, l1)
    /\ step w1 (WsMessage 2 (Some unmuteMessage)) = Some (w2, l2)
    /\ isMuted (vars w1) = true
    /\ w2 = streaming.
Proof.
  destruct (step streaming (WsMessage 1 (Some muteMessage))) as [[w1 l1]|] eqn:E1;
    [|vm_compute in E1; discriminate E1].
  destruct (step w1 (WsMessage 2 (Some unmuteMessage))) as [[w2 l2]|] eqn:E2;
    [|vm_compute in E1; injection E1 as <- <-; vm_compute in E2; discriminate E2].
  exists w1, l1, w2, l2.
  destruct (mute_then_unmute streaming w1 w2 l1 l2 1 2 muteMessage unmuteMessage
              eq_refl eq_refl E1 E2) as (Hm & _ & _ & Hsame & _).
  split; [reflexivity|]. split; [exact E2|]. split; [exact Hm|].
  apply Hsame. reflexivity.
Defined.

(** ** Error events *)

(** An error reported by the client socket, by an upstream connection or
    by a microphone is only reported on: the turn changes no variable and no
    object, stops and finishes nothing, opens no connection and arms no
    reconnect; it prints the error and sends debug and error frames. *)
Theorem error_events_change_nothing (w : world) (e : event) (w' : world) (l : list effect) :
  isErrorEvent e = true ->
  step w e = Some (w', l) ->
  w' = w
  /\ List.filter isRelease l = []
  /\ List.filter isUpstreamCall l = []
  /\ List.filter isSetTimeout l = []
  /\ List.filter (fun x => isWsSend x && negb (isDebugOrError x)) l = [].
Proof.
  intros He H. destruct e; try discriminate He; turn H.
  all: enter H; wp.
  all: repeat split.
Qed.

Lemma error_events_change_nothing_witness :
  exists l,
    step streaming (MicError 0 (lit "device lost")) = Some (streaming, l)
    /\ List.filter isRelease l = [].
Proof.
  destruct (step streaming (MicError 0 (lit "device lost"))) as [[w' l]|] eqn:E;
    [|vm_compute in E; discriminate E].
  destruct (error_events_change_nothing streaming (MicError 0 (lit "device lost")) w' l
              eq_refl E) as (-> & Hr & _).
  exists l. split; [reflexivity|exact Hr].
Defined.

(** ** The byte counter *)

Lemma sentPayloads_app (l1 l2 : list effect) :
  sentPayloads (l1 ++ l2) = sentPayloads l1 ++ sentPayloads l2.
Proof.
  induction l1 as [|e l1 IH]; [reflexivity|].
  destruct e; simpl; rewrite ?IH; reflexivity.
Qed.

Lemma totalLength_app (p1 p2 : list payload) (n : Z) :
  totalLength (p1 ++ p2) = Some n ->
  exists n1 n2, totalLength p1 = Some n1 /\ totalLength p2 = Some n2 /\ n = n1 + n2.
Proof.
  revert n. induction p1 as [|p p1 IH]; intros n H; simpl in *.
  - exists 0, n. split; [reflexivity|]. split; [exact H|lia].
  - destruct (payloadLength p) as [k|]; [|discriminate].
    destruct (totalLength (p1 ++ p2)) as [m|] eqn:E; [|discriminate].
    injection H as <-. destruct (IH m eq_refl) as (n1 & n2 & -> & -> & ->).
    exists (k + n1), n2. split; [reflexivity|]. split; [reflexivity|lia].
Qed.

Lemma no_send_no_payload (l : list effect) :
  Forall (fun e => isDgSend e = false) l -> sentPayloads l = [].
Proof.
  induction 1 as [|e l He _ IH]; [reflexivity|].
  destruct e; simpl; try exact IH. discriminate He.
Qed.

Lemma onTranscript_counter (T : jsstring) (c : counter) :
  respects (fun w => totalAudioBytesSent (vars w) = c) (fun e => isDgSend e = false)
    (onTranscript T).
Proof.
  intros w Hw. rewrite post_eq, onTranscript_run. unfold debugLog. simpl.
  split; [destruct (nonEmptyTranscript T); exact Hw|].
  destruct (nonEmptyTranscript T), (isOpen (wsReadyState w)); simpl;
    repeat first [apply List.Forall_nil | apply List.Forall_cons; [reflexivity|]].
Qed.

(** A turn hands at most one payload to the upstream connection, and adds
    its [length] to the counter when it does. *)
Lemma step_counter (w : world) (e : event) (w' : world) (l : list effect) (k : Z) :
  step w e = Some (w', l) ->
  totalLength (sentPayloads l) = Some k ->
  (sentPayloads l = [] /\ k = 0
   /\ totalAudioBytesSent (vars w') = totalAudioBytesSent (vars w))
  \/ (exists p, sentPayloads l = [p] /\ payloadLength p = Some k
                /\ totalAudioBytesSent (vars w')
                   = addAssign (totalAudioBytesSent (vars w)) (JNum k)).
Proof.
  intros H Hm. revert Hm. destruct e; turn H.
  all: try solve [enter_full H; wp; simpl; intros [= <-]; left; repeat split].
  - enter_full H. destruct message as [data|]; wp; simpl.
    all: try solve [intros [= <-]; left; repeat split].
    all: unfold payloadLength; rewrite ?Heqr1.
    all: try solve [discriminate].
    all: destruct a1; simpl; try solve [discriminate].
    all: rewrite Z.add_0_r; intros [= <-]; right; eexists; split; [reflexivity|];
      unfold payloadLength; rewrite Heqr1; split; reflexivity.
  - injection H as <- <-. simpl. intros [= <-]. left. repeat split.
  - injection H as H.
    apply (runHandler_respects
             (fun x => totalAudioBytesSent (vars x) = totalAudioBytesSent (vars w))
             (fun e => isDgSend e = false)) in H;
      [|apply times_respects, onTranscript_counter|reflexivity].
    destruct H as [Hc Hl]. rewrite (no_send_no_payload _ Hl). simpl.
    intros [= <-]. left. repeat split. exact Hc.
  - enter_full H. wp; simpl.
    all: try solve [intros [= <-]; left; repeat split].
    all: rewrite Z.add_0_r; intros [= <-]; right; eexists; split; [reflexivity|];
      split; reflexivity.
Qed.

Lemma roundToDouble_safe (x : Z) : 0 <= x <= 2 ^ 53 -> roundToDouble x = x.
Proof.
  intros Hx. unfold roundToDouble.
  destruct (Z.abs x <? 2 ^ 53) eqn:E; [reflexivity|].
  apply Z.ltb_ge in E. assert (x = 2 ^ 53) as -> by lia.
  vm_compute. reflexivity.
Qed.

(** Below 2^53 the sum of two non-negative integers is exact. *)
Lemma addAssign_safe (n m : Z) :
  0 <= n -> 0 <= m -> n + m <= 2 ^ 53 ->
  addAssign (Exact n) (JNum m) = Exact (n + m).
Proof.
  intros Hn Hm Hs. unfold addAssign, isFinite.
  rewrite roundToDouble_safe by lia.
  assert (H : Z.abs (n + m) < 2 ^ 1024).
  { apply Z.le_lt_trans with (2 ^ 53); [lia|]. reflexivity. }
  apply Z.ltb_lt in H. rewrite H. reflexivity.
Qed.

Lemma totalLength_nonneg (ps : list payload) (n : Z) :
  nonNegativeLengths ps -> totalLength ps = Some n -> 0 <= n.
Proof.
  intros Hp. revert n. induction Hp as [|p ps (k & Hk & Hk0) _ IH]; intros n H; simpl in H.
  - injection H as <-. lia.
  - rewrite Hk in H. destruct (totalLength ps) as [m|]; [|discriminate].
    injection H as <-. specialize (IH m eq_refl). lia.
Qed.

Lemma run_counter (es : list event) (w w' : world) (l : list effect) (n m : Z) :
  totalAudioBytesSent (vars w) = Exact n ->
  0 <= n ->
  run w es = Some (w', l) ->
  nonNegativeLengths (sentPayloads l) ->
  totalLength (sentPayloads l) = Some m ->
  n + m <= 2 ^ 53 ->
  totalAudioBytesSent (vars w') = Exact (n + m).
Proof.
  revert w l n m. induction es as [|e es IH]; intros w l n m Hn Hn0 H Hp Hm Hs.
  - simpl in H. injection H as <- <-. simpl in Hm. injection Hm as <-.
    rewrite Z.add_0_r. exact Hn.
  - rewrite run_cons in H.
    destruct (step w e) as [[w1 l1]|] eqn:E1; [|discriminate].
    destruct (run w1 es) as [[w2 l2]|] eqn:E2; [|discriminate].
    injection H as <- <-. rewrite sentPayloads_app in Hm, Hp.
    apply totalLength_app in Hm as (n1 & n2 & H1 & H2 & ->).
    unfold nonNegativeLengths in Hp. apply Forall_app in Hp as [Hp1 Hp2].
    pose proof (totalLength_nonneg _ _ Hp1 H1) as Hn1.
    pose proof (totalLength_nonneg _ _ Hp2 H2) as Hn2.
    rewrite Z.add_assoc.
    apply (IH w1 l2 (n + n1) n2); [|lia|exact E2|exact Hp2|exact H2|lia].
    destruct (step_counter w e w1 l1 n1 E1 H1) as [(_ & -> & Hc)|(p & _ & _ & Hc)].
    + rewrite Hc, Z.add_0_r. exact Hn.
    + rewrite Hc, Hn. apply addAssign_safe; lia.
Qed.

(** [totalAudioBytesSent] counts what was handed to the upstream
    connection: after any events from the start of a session, if every
    payload sent upstream has a [length] that is a non-negative integer (a
    Buffer of the microphone, a string, an array) and the lengths add up to
    at most 2^53, the counter is their sum. *)
Theorem counter_is_bytes_sent (es : list event) (w : world) (l : list effect) (n : Z) :
  run start es = Some (w, l) ->
  nonNegativeLengths (sentPayloads l) ->
  totalLength (sentPayloads l) = Some n ->
  n <= 2 ^ 53 ->
  totalAudioBytesSent (vars w) = Exact n.
Proof.
  intros H Hp Hn Hs.
  exact (run_counter es start w l 0 n eq_refl (Z.le_refl 0) H Hp Hn Hs).
Qed.

Lemma counter_is_bytes_sent_witness :
  exists w l,
    run start [DeepgramOpen 0%nat; MicData 0%nat 1 [7%N; 8%N; 9%N];
               WsMessage 2 (Some (audioDataMessage (JStr (lit "abcd"))))] = Some (w, l)
    /\ sentPayloads l = [Buf [7%N; 8%N; 9%N]; Val (JStr (lit "abcd"))]
    /\ totalAudioBytesSent (vars w) = Exact 7.
Proof.
  destruct (run start [DeepgramOpen 0%nat; MicData 0%nat 1 [7%N; 8%N; 9%N];
                       WsMessage 2 (Some (audioDataMessage (JStr (lit "abcd"))))])
    as [[w l]|] eqn:E; [|vm_compute in E; discriminate E].
  exists w, l. split; [reflexivity|].
  assert (Hp : sentPayloads l = [Buf [7%N; 8%N; 9%N]; Val (JStr (lit "abcd"))]).
  { vm_compute in E. injection E as <- <-. reflexivity. }
  split; [exact Hp|].
  apply (counter_is_bytes_sent _ w l 7 E).
  - rewrite Hp. repeat constructor; eexists; (split; [reflexivity|]); simpl; lia.
  - rewrite Hp. reflexivity.
  - lia.
Defined.

(** Beyond 2^53 the counter is no longer the sum: a payload whose [length]
    is 2^53 followed by one of length 1 leaves the counter at 2^53, the
    double nearest to the sum. *)
Example counter_rounds_beyond_safe_integers :
  option_map (fun p => totalAudioBytesSent (vars (fst p)))
    (run start [DeepgramOpen 0%nat;
                WsMessage 1 (Some (audioDataMessage
                                     (JObj [(lit "length", JNum 9007199254740992)])));
                WsMessage 2 (Some (audioDataMessage (JStr (lit "a"))))])
  = Some (Exact 9007199254740992).
Proof. vm_compute. reflexivity. Qed.

(** ** References and flags *)

Lemma lastIndex_alter {A : Type} (f : A -> A) (i : nat) (l : list A) :
  lastIndex (alter f i l) = lastIndex l.
Proof. unfold lastIndex. rewrite length_alter. reflexivity. Qed.

Lemma lastIndex_snoc {A : Type} (l : list A) (x : A) :
  lastIndex (l ++ [x]) = Some (length l).
Proof. unfold lastIndex. rewrite length_app. simpl. rewrite Nat.add_1_r. reflexivity. Qed.

Lemma lastIndex_length {A : Type} (l : list A) (n : nat) :
  lastIndex l = Some n -> length l = S n.
Proof. unfold lastIndex. destruct (length l); [discriminate|]. intros [= ->]. reflexivity. Qed.

Lemma alter_nonempty {A : Type} (f : A -> A) (i : nat) (l : list A) :
  l <> [] -> alter f i l <> [].
Proof. destruct l, i; simpl; congruence. Qed.

Lemma snoc_nonempty {A : Type} (l : list A) (x : A) : l ++ [x] <> [].
Proof. destruct l; discriminate. Qed.

(** A microphone is made and started: one more, running. *)
Lemma microphone_started (ms : list bool) :
  alter (fun _ : bool => true) (length ms) (ms ++ [false]) = ms ++ [true].
Proof. rewrite alter_app_r_alt by lia. rewrite Nat.sub_diag. reflexivity. Qed.

Lemma take_all_but_last {A : Type} (l : list A) (x : A) :
  take (length (l ++ [x]) - 1) (l ++ [x]) = l.
Proof.
  rewrite length_app. simpl. rewrite Nat.add_sub. apply take_app_length.
Qed.

Lemma onTranscript_consistent (T : jsstring) :
  respects consistent (fun _ => True) (onTranscript T).
Proof.
  intros w Hw. rewrite post_eq, onTranscript_run. simpl.
  split; [destruct (nonEmptyTranscript T); exact Hw|].
  apply Forall_forall. intros; exact I.
Qed.

Lemma alter_nil_inv {A : Type} (f : A -> A) (i : nat) (l : list A) :
  alter f i l = [] -> l = [].
Proof. destruct l, i; simpl; congruence. Qed.

Lemma snoc_nil_inv {A : Type} (l : list A) (x : A) : l ++ [x] = [] -> False.
Proof. destruct l; discriminate. Qed.

Lemma lastIndex_None {A : Type} (l : list A) : lastIndex l = None -> l = [].
Proof. destruct l; [reflexivity|discriminate]. Qed.

Ltac consistent_goal :=
  unfold consistent; wp_simpl;
  rewrite ?microphone_started, ?lastIndex_alter, ?lastIndex_snoc, ?take_all_but_last,
    ?length_alter, ?Forall_app;
  wp_known.

Ltac consistent_close :=
  intuition (eauto using alter_nil_inv, snoc_nil_inv, lastIndex_None, eq_sym;
             try congruence; try (repeat constructor)).

Lemma step_consistent (w : world) (e : event) (w' : world) (l : list effect) :
  consistent w -> step w e = Some (w', l) -> consistent w'.
Proof.
  intros (Hne & Hdc & Hmi & Hcl & Hcd & Hbut & Hall) H.
  destruct e; turn H.
  all: try solve [enter H; wp; consistent_goal; consistent_close].
  - injection H as <- _. consistent_goal.
    destruct (wsReadyState w); try discriminate.
    intuition (try congruence).
  - enter H. wp; consistent_goal.
    all: try (pose proof (lastIndex_length _ _ (eq_sym Hmi)) as Hlen;
              rewrite take_alter_ge by lia).
    all: consistent_close.
  - injection H as H.
    apply (runHandler_respects consistent (fun _ => True)) in H; [apply H| |].
    + apply times_respects, onTranscript_consistent.
    + exact (conj Hne (conj Hdc (conj Hmi (conj Hcl (conj Hcd (conj Hbut Hall)))))).
Qed.

Lemma start_consistent : consistent start.
Proof.
  unfold consistent. cbn. repeat split; try discriminate; try constructor.
Qed.

Lemma reachable_consistent (w : world) : reachable w -> consistent w.
Proof.
  intros (es & l & H).
  exact (run_invariant consistent step_consistent es start w l start_consistent H).
Qed.

(** [deepgramConnection] and [micInstance] never dangle and never lag: in
    every reachable world [deepgramConnection] is the connection made last,
    and [micInstance] is [undefined] while no microphone was made and the
    microphone made last afterwards. *)
Theorem handles_name_latest_objects (w : world) :
  reachable w ->
  (exists c k, deepgramConnection (vars w) = Some c
               /\ length (connections w) = S c /\ connections w !! c = Some k)
  /\ (micInstance (vars w) = None /\ microphones w = []
      \/ exists m b, micInstance (vars w) = Some m
                     /\ length (microphones w) = S m /\ microphones w !! m = Some b).
Proof.
  intros Hr. destruct (reachable_consistent w Hr) as (Hne & Hdc & Hmi & _).
  split.
  - destruct (lastIndex (connections w)) as [c|] eqn:E.
    + pose proof (lastIndex_length _ _ E) as Hlen.
      destruct (lookup_lt_is_Some_2 (connections w) c) as [k Hk]; [lia|].
      exists c, k. repeat split; assumption.
    + apply lastIndex_None in E. contradiction.
  - destruct (lastIndex (microphones w)) as [m|] eqn:E.
    + right. pose proof (lastIndex_length _ _ E) as Hlen.
      destruct (lookup_lt_is_Some_2 (microphones w) m) as [b Hb]; [lia|].
      exists m, b. repeat split; assumption.
    + left. split; [exact Hmi|]. apply lastIndex_None, E.
Qed.

Lemma reconnectRace_reachable : reachable (after reconnectRace).
Proof.
  exists reconnectRace, (snd (default (start, []) (run start reconnectRace))).
  vm_compute. reflexivity.
Qed.

Lemma handles_name_latest_objects_witness :
  deepgramConnection (vars (after reconnectRace)) = Some 2%nat
  /\ micInstance (vars (after reconnectRace)) = Some 2%nat
  /\ length (connections (after reconnectRace)) = 3%nat.
Proof.
  destruct (handles_name_latest_objects _ reconnectRace_reachable)
    as [(c & k & Hc & Hlen & _) _].
  assert (Hc2 : deepgramConnection (vars (after reconnectRace)) = Some 2%nat)
    by (vm_compute; reflexivity).
  split; [exact Hc2|]. split; [vm_compute; reflexivity|].
  rewrite Hc2 in Hc. injection Hc as <-. exact Hlen.
Defined.

(** [isWebSocketClosed] is true exactly when the client socket is CLOSED,
    and a session whose client has gone never counts itself as connected to
    the upstream service, so it forwards no audio. *)
Theorem closed_flag_mirrors_socket (w : world) :
  reachable w ->
  (isWebSocketClosed (vars w) = true <-> wsReadyState w = CLOSED)
  /\ (isWebSocketClosed (vars w) = true ->
      isDeepgramConnected (vars w) = false /\ writable w = false).
Proof.
  intros Hr. destruct (reachable_consistent w Hr) as (_ & _ & _ & Hcl & Hcd & _).
  split; [exact Hcl|]. intros Hc. specialize (Hcd Hc).
  split; [exact Hcd|]. unfold writable. rewrite Hcd. reflexivity.
Qed.

Lemma closed_flag_mirrors_socket_witness :
  isWebSocketClosed (vars clientClosing) = false /\ wsReadyState clientClosing = CLOSING
  /\ (isWebSocketClosed (vars closedWhileTranslating) = true
      <-> wsReadyState closedWhileTranslating = CLOSED).
Proof.
  split; [reflexivity|]. split; [reflexivity|].
  exact (proj1 (closed_flag_mirrors_socket _ closedWhileTranslating_reachable)).
Defined.

(** Only the microphone made last is ever stopped.  Every upstream Open
    starts a new microphone and leaves the previous ones capturing: in every
    reachable world all microphones but the last are running, and all of
    them are while the client is connected; the disconnect handler stops
    just the last. *)
Theorem earlier_microphones_keep_running (w : world) (i : nat) :
  reachable w ->
  (S i < length (microphones w))%nat \/
  (i < length (microphones w))%nat /\ isWebSocketClosed (vars w) = false ->
  microphones w !! i = Some true.
Proof.
  intros Hr Hi.
  destruct (reachable_consistent w Hr) as (_ & _ & _ & _ & _ & Hbut & Hall).
  destruct Hi as [Hi|[Hi Hc]].
  - rewrite Forall_lookup in Hbut.
    destruct (lookup_lt_is_Some_2 (microphones w) i) as [b Hb]; [lia|].
    rewrite Hb. f_equal. apply (Hbut i b).
    rewrite lookup_take_lt by lia. exact Hb.
  - specialize (Hall Hc). rewrite Forall_lookup in Hall.
    destruct (lookup_lt_is_Some_2 (microphones w) i) as [b Hb]; [lia|].
    rewrite Hb. f_equal. exact (Hall i b Hb).
Qed.

Lemma earlier_microphones_keep_running_witness :
  microphones (after (reconnectRace ++ [WsClose])) = [true; true; false]
  /\ microphones (after (reconnectRace ++ [WsClose])) !! 1%nat = Some true.
Proof.
  split; [vm_compute; reflexivity|].
  apply earlier_microphones_keep_running.
  - exists (reconnectRace ++ [WsClose]),
      (snd (default (start, []) (run start (reconnectRace ++ [WsClose])))).
    vm_compute. reflexivity.
  - left. vm_compute. lia.
Defined.

(** ** The status 'Connected' *)

Lemma onTranscript_no_status (T : jsstring) :
  respects (fun _ => True) (fun e => isConnectedStatus e = false) (onTranscript T).
Proof.
  intros w _. rewrite post_eq, onTranscript_run. unfold debugLog. simpl.
  split; [exact I|].
  destruct (nonEmptyTranscript T), (isOpen (wsReadyState w)); simpl;
    repeat first [apply List.Forall_nil | apply List.Forall_cons; [reflexivity|]].
Qed.

(** The client is told 'Connected' only by the Open listener of an upstream
    connection, never before one has opened: a turn that sends that status
    is the Open event of a connection, in a session whose client has not
    gone, and it leaves [isDeepgramConnected] true. *)
Theorem connected_status_only_on_open (w : world) (e : event) (w' : world)
    (l : list effect) (r : ready_state) :
  step w e = Some (w', l) ->
  In (WsSend r (FStatus Connected)) l ->
  (exists c, e = DeepgramOpen c)
  /\ isWebSocketClosed (vars w) = false
  /\ isDeepgramConnected (vars w') = true.
Proof.
  intros H Hin. revert Hin. destruct e; turn H.
  all: try solve [enter_full H; wp; simpl;
                  intuition (try discriminate; try congruence; eauto)].
  - injection H as <- <-. intros [].
  - injection H as H.
    apply (runHandler_respects (fun _ => True) (fun e => isConnectedStatus e = false)) in H;
      [|apply times_respects, onTranscript_no_status|exact I].
    destruct H as [_ Hl]. intros Hin. rewrite Forall_forall in Hl.
    apply list_elem_of_In in Hin. specialize (Hl _ Hin). discriminate Hl.
Qed.

Lemma connected_status_only_on_open_witness :
  exists w' l,
    step start (DeepgramOpen 0%nat) = Some (w', l)
    /\ In (WsSend OPEN (FStatus Connected)) l
    /\ isDeepgramConnected (vars w') = true.
Proof.
  destruct (step start (DeepgramOpen 0%nat)) as [[w' l]|] eqn:E;
    [|vm_compute in E; discriminate E].
  assert (Hin : In (WsSend OPEN (FStatus Connected)) l).
  { vm_compute in E. injection E as <- <-. simpl. tauto. }
  exists w', l. split; [reflexivity|]. split; [exact Hin|].
  exact (proj2 (proj2 (connected_status_only_on_open _ _ _ _ _ E Hin))).
Defined.

(** ** Audio of the microphone *)

Lemma micData_forwarded (w : world) (m c : nat) (now : Z) (data : list N) :
  microphones w !! m = Some true ->
  isDeepgramConnected (vars w) = true ->
  deepgramConnection (vars w) = Some c ->
  readyStateOf (connections w) c = OPEN ->
  exists w1 l1,
    step w (MicData m now data) = Some (w1, l1)
    /\ List.filter isDgSend l1 = [DgSend c (Buf data)]
    /\ microphones w1 = microphones w
    /\ connections w1 = connections w
    /\ isDeepgramConnected (vars w1) = true
    /\ deepgramConnection (vars w1) = Some c.
Proof.
  intros Hm Hc Hd Ho. unfold step. rewrite Hm.
  destruct (runHandler (onMicData now data) w) as [w1 l1] eqn:E.
  exists w1, l1. split; [reflexivity|]. revert w1 l1 E.
  apply runHandler_post. wp.
  all: try (rewrite Ho in *; discriminate).
  all: repeat split; assumption.
Qed.

(** While the upstream stream is open, the chunks of a microphone are
    handed to the connection [deepgramConnection] refers to one by one, in
    the order they arrive, none dropped, merged or repeated. *)
Theorem microphone_chunks_forwarded_in_order (w : world) (m c : nat)
    (chunks : list (Z * list N)) :
  microphones w !! m = Some true ->
  isDeepgramConnected (vars w) = true ->
  deepgramConnection (vars w) = Some c ->
  readyStateOf (connections w) c = OPEN ->
  exists w' l,
    run w (micChunks m chunks) = Some (w', l)
    /\ List.filter isDgSend l = map (fun x => DgSend c (Buf (snd x))) chunks.
Proof.
  revert w. induction chunks as [|[now data] chunks IH]; intros w Hm Hc Hd Ho.
  - exists w, []. split; reflexivity.
  - destruct (micData_forwarded w m c now data Hm Hc Hd Ho)
      as (w1 & l1 & Hs & Hl & Hm1 & Hc1 & Hi1 & Hd1).
    destruct (IH w1) as (w' & l & Hr & Hl').
    + rewrite Hm1. exact Hm.
    + exact Hi1.
    + exact Hd1.
    + rewrite Hc1. exact Ho.
    + exists w', (l1 ++ l). split.
      * unfold micChunks. simpl map. rewrite run_cons. simpl fst. simpl snd.
        rewrite Hs. unfold micChunks in Hr. rewrite Hr. reflexivity.
      * rewrite List.filter_app, Hl, Hl'. reflexivity.
Qed.

Lemma microphone_chunks_forwarded_in_order_witness :
  exists w' l,
    run streaming (micChunks 0 [(1, [1%N]); (2, []); (3, [2%N; 3%N])]) = Some (w', l)
    /\ List.filter isDgSend l
       = [DgSend 0%nat (Buf [1%N]); DgSend 0%nat (Buf []); DgSend 0%nat (Buf [2%N; 3%N])].
Proof.
  exact (microphone_chunks_forwarded_in_order streaming 0 0
           [(1, [1%N]); (2, []); (3, [2%N; 3%N])] eq_refl eq_refl eq_refl eq_refl).
Defined.

Lemma micData_logged (w : world) (m c : nat) (now : Z) (data : list N)
    (w1 : world) (l1 : list effect) :
  isDeepgramConnected (vars w) = true ->
  deepgramConnection (vars w) = Some c ->
  readyStateOf (connections w) c = OPEN ->
  step w (MicData m now data) = Some (w1, l1) ->
  lastAudioSentTimestamp (vars w1)
  = (if 5000 <=? now - lastAudioSentTimestamp (vars w) then now
     else lastAudioSentTimestamp (vars w))
  /\ (List.filter isSentTotal l1 <> [] ->
      (5000 <=? now - lastAudioSentTimestamp (vars w)) = true)
  /\ isDeepgramConnected (vars w1) = true
  /\ deepgramConnection (vars w1) = Some c
  /\ connections w1 = connections w.
Proof.
  intros Hc Hd Ho H. turn H. enter H. wp.
  all: try (rewrite Ho in *; discriminate).
  all: repeat split; try assumption; try reflexivity.
  all: simpl; intros F; try reflexivity; contradiction F; reflexivity.
Qed.

(** The debug frame with the running total of bytes is sent at most once
    per five seconds of the server clock: when a chunk of the microphone
    has logged the total at [t1], the next chunk, arriving at [t2] less than
    5000 ms later, logs nothing. *)
Theorem total_bytes_logged_once_per_window (w : world) (m m' c : nat) (t1 t2 : Z)
    (d1 d2 : list N) (w1 w2 : world) (l1 l2 : list effect) :
  isDeepgramConnected (vars w) = true ->
  deepgramConnection (vars w) = Some c ->
  readyStateOf (connections w) c = OPEN ->
  step w (MicData m t1 d1) = Some (w1, l1) ->
  step w1 (MicData m' t2 d2) = Some (w2, l2) ->
  List.filter isSentTotal l1 <> [] ->
  t2 - t1 < 5000 ->
  List.filter isSentTotal l2 = [] /\ lastAudioSentTimestamp (vars w2) = t1.
Proof.
  intros Hc Hd Ho S1 S2 Hlog Hlt.
  destruct (micData_logged w m c t1 d1 w1 l1 Hc Hd Ho S1) as (Hl1 & Hw1 & Hc1 & Hd1 & Hk1).
  specialize (Hw1 Hlog). rewrite Hw1 in Hl1.
  rewrite <- Hk1 in Ho.
  destruct (micData_logged w1 m' c t2 d2 w2 l2 Hc1 Hd1 Ho S2) as (Hl2 & Hw2 & _).
  rewrite Hl1 in Hl2, Hw2.
  assert (Hf : (5000 <=? t2 - t1) = false) by (apply Z.leb_gt; exact Hlt).
  rewrite Hf in Hl2. split; [|exact Hl2].
  destruct (List.filter isSentTotal l2) as [|x y]; [reflexivity|].
  assert (Ht : (5000 <=? t2 - t1) = true) by (apply Hw2; discriminate).
  congruence.
Qed.

Lemma total_bytes_logged_once_per_window_witness :
  exists w1 l1 w2 l2,
    step streaming (MicData 0 1700000000000 [1%N; 2%N]) = Some (w1, l1)
    /\ step w1 (MicData 0 1700000004999 [3%N]) = Some (w2, l2)
    /\ List.filter isSentTotal l1 = [WsSend OPEN (FDebug (DSentTotal (Exact 2)))]
    /\ List.filter isSentTotal l2 = [].
Proof.
  destruct (step streaming (MicData 0 1700000000000 [1%N; 2%N])) as [[w1 l1]|] eqn:E1;
    [|vm_compute in E1; discriminate E1].
  destruct (step w1 (MicData 0 1700000004999 [3%N])) as [[w2 l2]|] eqn:E2;
    [|vm_compute in E1; injection E1 as <- <-; vm_compute in E2; discriminate E2].
  assert (Hl1 : List.filter isSentTotal l1 = [WsSend OPEN (FDebug (DSentTotal (Exact 2)))]).
  { vm_compute in E1. injection E1 as <- <-. reflexivity. }
  exists w1, l1, w2, l2. split; [reflexivity|]. split; [exact E2|]. split; [exact Hl1|].
  apply (total_bytes_logged_once_per_window streaming 0 0 0 1700000000000 1700000004999
           [1%N; 2%N] [3%N] w1 w2 l1 l2 eq_refl eq_refl eq_refl E1 E2).
  - rewrite Hl1. discriminate.
  - lia.
Defined.

(** ** Reconnecting *)

(** A reconnect timer that fires when the session is connected again (the
    microphone handler reconnected first), or when the client has gone,
    attempts nothing although it announces an attempt: no connection is
    made and no variable changes. *)
Theorem stale_reconnect_timer_does_nothing (w w' : world) (l : list effect) :
  isDeepgramConnected (vars w) = true \/ isWebSocketClosed (vars w) = true ->
  step w TimerFires = Some (w', l) ->
  w' = withTimers pred w
  /\ l = debugLog w DReconnecting.
Proof.
  intros Hg H. unfold step in H.
  destruct (timers w) as [|t] eqn:Et; [discriminate|].
  injection H as H.
  unfold runHandler, onReconnectTimer, bind in H. rewrite sendDebugToClient_run in H.
  unfold setupDeepgram, bind, read, ret in H. cbn [vars withTimers] in H.
  assert (Hb : isDeepgramConnected (vars w) || isWebSocketClosed (vars w) = true).
  { destruct Hg as [-> | ->]; [reflexivity|apply orb_true_r]. }
  rewrite Hb in H. injection H as <- <-.
  split.
  - destruct w; simpl in *. rewrite Et. reflexivity.
  - unfold debugLog. simpl. rewrite app_nil_r. reflexivity.
Qed.

Lemma stale_reconnect_timer_does_nothing_witness :
  exists w' l,
    step (after [DeepgramOpen 0%nat; DeepgramClose 0%nat; MicData 0%nat 1 [];
                 DeepgramOpen 1%nat])
         TimerFires = Some (w', l)
    /\ l = [WsSend OPEN (FDebug DReconnecting)]
    /\ length (connections w') = 2%nat.
Proof.
  destruct (step (after [DeepgramOpen 0%nat; DeepgramClose 0%nat; MicData 0%nat 1 [];
                         DeepgramOpen 1%nat]) TimerFires) as [[w' l]|] eqn:E;
    [|vm_compute in E; discriminate E].
  exists w', l. split; [reflexivity|].
  match type of E with
  | step ?w _ = _ =>
      destruct (stale_reconnect_timer_does_nothing w w' l (or_introl eq_refl) E) as [-> ->]
  end.
  split; reflexivity.
Defined.

Lemma failed_attempt_retried (c : nat) (w : world) :
  awaiting c w ->
  exists w2 l2,
    run w [DeepgramClose c; TimerFires] = Some (w2, l2)
    /\ awaiting (S c) w2
    /\ List.filter isSetTimeout l2 = [SetTimeout 5000]
    /\ List.filter isDgListen l2 = [DgListen (S c)].
Proof.
  intros (Ho & Hcl & Hd & Hlen & k & Hk & Hr).
  rewrite run_cons. unfold step at 1. rewrite Hk, Hr. cbn [notClosed].
  destruct (runHandler onDeepgramClose _) as [w1 l1] eqn:E1.
  assert (H1 : w1 = withTimers S (withVars (set_isDeepgramConnected false)
                      (withConnections (alter (setReadyState CLOSED) c) w))
               /\ List.filter isSetTimeout l1 = [SetTimeout 5000]
               /\ List.filter isDgListen l1 = []).
  { revert w1 l1 E1. apply runHandler_post. wp; repeat split; congruence. }
  destruct H1 as (-> & Ht1 & Hg1).
  rewrite run_cons. unfold step at 1. cbn [timers withTimers].
  destruct (runHandler onReconnectTimer _) as [w2 l2] eqn:E2.
  assert (H2 : awaiting (S c) w2
               /\ List.filter isSetTimeout l2 = []
               /\ List.filter isDgListen l2 = [DgListen (S c)]).
  { revert w2 l2 E2. apply runHandler_post. wp; try congruence.
    rewrite !length_alter, Hlen. split; [|split; reflexivity].
    unfold awaiting. wp_simpl. rewrite length_app, !length_alter, Hlen.
    repeat split; try assumption; try reflexivity.
    - simpl. lia.
    - exists freshConnection. split; [|reflexivity].
      rewrite lookup_app_r by (rewrite !length_alter; lia).
      rewrite !length_alter, Hlen, Nat.sub_diag. reflexivity. }
  destruct H2 as (Ha & Ht2 & Hg2).
  exists w2, (l1 ++ l2 ++ []). split; [reflexivity|]. split; [exact Ha|].
  rewrite app_nil_r, !List.filter_app, Ht1, Ht2, Hg1, Hg2. split; reflexivity.
Qed.

Lemma start_awaiting : awaiting 0 start.
Proof.
  unfold awaiting. cbn. repeat split. exists freshConnection. split; reflexivity.
Qed.

Lemma run_app (es1 es2 : list event) (w w1 w2 : world) (l1 l2 : list effect) :
  run w es1 = Some (w1, l1) ->
  run w1 es2 = Some (w2, l2) ->
  run w (es1 ++ es2) = Some (w2, l1 ++ l2).
Proof.
  revert w l1. induction es1 as [|e es1 IH]; intros w l1 H1 H2.
  - simpl in H1. injection H1 as <- <-. exact H2.
  - rewrite <- app_comm_cons, run_cons. rewrite run_cons in H1.
    destruct (step w e) as [[wa la]|]; [|discriminate].
    destruct (run wa es1) as [[wb lb]|] eqn:Eb; [|discriminate].
    injection H1 as <- <-.
    rewrite (IH wa lb Eb H2), app_assoc. reflexivity.
Qed.

Lemma outage_run (n c : nat) (w : world) :
  awaiting c w ->
  exists w' l,
    run w (outage c n) = Some (w', l)
    /\ awaiting (c + n) w'
    /\ List.filter isSetTimeout l = repeat (SetTimeout 5000) n
    /\ List.filter isDgListen l = map DgListen (seq (S c) n).
Proof.
  revert c w. induction n as [|n IH]; intros c w Hw.
  - exists w, []. rewrite Nat.add_0_r.
    split; [reflexivity|]. split; [exact Hw|]. split; reflexivity.
  - destruct (failed_attempt_retried c w Hw) as (w2 & l2 & H2 & Ha2 & Ht2 & Hg2).
    destruct (IH (S c) w2 Ha2) as (w' & l & H & Ha & Ht & Hg).
    exists w', (l2 ++ l). split.
    + exact (run_app [DeepgramClose c; TimerFires] (outage (S c) n) w w2 w' l2 l H2 H).
    + replace (c + S n)%nat with (S c + n)%nat by lia. split; [exact Ha|].
      rewrite !List.filter_app, Ht, Hg, Ht2, Hg2. split; reflexivity.
Qed.

(** The reconnect has no bound and no back-off.  When the upstream service
    refuses [n] connections in a row, for any [n], the session schedules [n]
    reconnects, each after the same 5000 ms, makes [n] further connections
    and is waiting for the last of them. *)
Theorem upstream_outage_retried_without_bound (n : nat) :
  exists w l,
    run start (outage 0 n) = Some (w, l)
    /\ List.filter isSetTimeout l = repeat (SetTimeout 5000) n
    /\ List.filter isDgListen l = map DgListen (seq 1 n)
    /\ length (connections w) = S n
    /\ awaiting n w.
Proof.
  destruct (outage_run n 0 start start_awaiting) as (w & l & H & Ha & Ht & Hg).
  exists w, l. repeat (split; [assumption|]).
  split; [apply Ha|exact Ha].
Qed.

(** ** Where the Transcript listener is registered *)

Lemma map_alter_commute {A B : Type} (f : A -> B) (g : A -> A) (h : B -> B)
    (i : nat) (l : list A) :
  (forall x, f (g x) = h (f x)) ->
  map f (alter g i l) = alter h i (map f l).
Proof.
  intros Hf. revert i. induction l as [|x l IH]; intros [|i]; simpl;
    try reflexivity.
  - rewrite Hf. reflexivity.
  - f_equal. apply IH.
Qed.

Lemma map_alter_invariant {A B : Type} (f : A -> B) (g : A -> A) (i : nat) (l : list A) :
  (forall x, f (g x) = f x) ->
  map f (alter g i l) = map f l.
Proof.
  intros Hf. revert i. induction l as [|x l IH]; intros [|i]; simpl;
    try reflexivity.
  - rewrite Hf. reflexivity.
  - f_equal. apply IH.
Qed.

(** The Open listener registers the Transcript listener on
    [deepgramConnection], the variable, as it is when the listener runs, not
    on the connection that has opened.  When connection [c] opens while the
    session names a later connection [d], it is [d] that gains a listener;
    [c] gains none, and a connection gains one listener per Open event that
    finds it current. *)
Theorem transcript_listener_goes_to_current_connection (w : world) (c d : nat)
    (w' : world) (l : list effect) :
  isWebSocketClosed (vars w) = false ->
  deepgramConnection (vars w) = Some d ->
  step w (DeepgramOpen c) = Some (w', l) ->
  map transcriptListeners (connections w')
  = alter S d (map transcriptListeners (connections w))
  /\ deepgramConnection (vars w') = Some d.
Proof.
  intros Hcl Hd E. turn E. enter_full E. wp.
  all: split; [|reflexivity].
  all: rewrite (map_alter_commute transcriptListeners addListener S) by reflexivity.
  all: rewrite (map_alter_invariant transcriptListeners) by reflexivity.
  all: reflexivity.
Qed.

Lemma transcript_listener_goes_to_current_connection_witness :
  exists w l0 w' l,
    run start [DeepgramOpen 0%nat; DeepgramClose 0%nat;
               MicData 0%nat 1 [0%N; 1%N]; MicData 0%nat 2 [2%N; 3%N]] = Some (w, l0)
    /\ deepgramConnection (vars w) = Some 2%nat
    /\ step w (DeepgramOpen 1%nat) = Some (w', l)
    /\ map transcriptListeners (connections w) = [1; 0; 0]%nat
    /\ map transcriptListeners (connections w') = [1; 0; 1]%nat.
Proof.
  destruct (run start [DeepgramOpen 0%nat; DeepgramClose 0%nat;
                       MicData 0%nat 1 [0%N; 1%N]; MicData 0%nat 2 [2%N; 3%N]])
    as [[w l0]|] eqn:E0; [|vm_compute in E0; discriminate E0].
  exists w, l0. vm_compute in E0. injection E0 as <- <-.
  match goal with
  | |- exists w' l, _ /\ _ /\ step ?w ?e = _ /\ _ =>
      destruct (step w e) as [[w' l]|] eqn:E;
        [|vm_compute in E; discriminate E];
      destruct (transcript_listener_goes_to_current_connection w 1 2 w' l
                  eq_refl eq_refl E) as (Hm & _)
  end.
  exists w', l. split; [reflexivity|]. split; [reflexivity|]. split; [reflexivity|].
  split; [reflexivity|]. rewrite Hm. reflexivity.
Defined.

(** ** A language switch while a translation is in flight *)





(** * The server without translation *)

Section PlainServerProperties.
Import PlainServer.

Lemma plain_post_bind {A B : Type} (m : Handler A) (k : A -> Handler B) (w : PlainServer.world)
    (Q : result B -> PlainServer.world -> list PlainServer.effect -> Prop) :
  PlainServer.post m w (fun r w1 l1 =>
    match r with
    | Ok a => PlainServer.post (k a) w1 (fun r2 w2 l2 => Q r2 w2 (l1 ++ l2))
    | Throw e => Q (Throw e) w1 l1
    end) ->
  PlainServer.post (PlainServer.bind m k) w Q.
Proof.
  unfold PlainServer.post, PlainServer.bind.
  destruct (m w) as [[[a|e] w1] l1]; [|exact id].
  destruct (k a w1) as [[r2 w2] l2]. exact id.
Qed.

Lemma plain_runHandler_post (h : Handler unit) (w : PlainServer.world)
    (Q : PlainServer.world -> list PlainServer.effect -> Prop) :
  PlainServer.post h w (fun r w1 l1 => Q w1 (l1 ++ PlainServer.uncaught r)) ->
  forall w' l, PlainServer.runHandler h w = (w', l) -> Q w' l.
Proof.
  unfold PlainServer.post, PlainServer.runHandler.
  destruct (h w) as [[[[]|e] w1] l1]; simpl.
  - rewrite app_nil_r. intros Hq w' l [= <- <-]. exact Hq.
  - intros Hq w' l [= <- <-]. exact Hq.
Qed.

Lemma plain_Some_inj (a b : PlainServer.world * list PlainServer.effect) :
  Some a = Some b -> a = b.
Proof. congruence. Qed.

Lemma plain_post_ret {A : Type} (a : A) (w : PlainServer.world)
    (Q : result A -> PlainServer.world -> list PlainServer.effect -> Prop) :
  Q (Ok a) w [] -> PlainServer.post (PlainServer.ret a) w Q.
Proof. exact id. Qed.

Lemma plain_post_throw {A : Type} (e : exn) (w : PlainServer.world)
    (Q : result A -> PlainServer.world -> list PlainServer.effect -> Prop) :
  Q (Throw e) w [] -> PlainServer.post (PlainServer.throw e) w Q.
Proof. exact id. Qed.

Lemma plain_post_read {A : Type} (f : PlainServer.world -> A) (w : PlainServer.world)
    (Q : result A -> PlainServer.world -> list PlainServer.effect -> Prop) :
  Q (Ok (f w)) w [] -> PlainServer.post (PlainServer.read f) w Q.
Proof. exact id. Qed.

Lemma plain_post_update (f : PlainServer.world -> PlainServer.world) (w : PlainServer.world)
    (Q : result unit -> PlainServer.world -> list PlainServer.effect -> Prop) :
  Q (Ok tt) (f w) [] -> PlainServer.post (PlainServer.update f) w Q.
Proof. exact id. Qed.

Lemma plain_post_perform (e : PlainServer.effect) (w : PlainServer.world)
    (Q : result unit -> PlainServer.world -> list PlainServer.effect -> Prop) :
  Q (Ok tt) w [e] -> PlainServer.post (PlainServer.perform e) w Q.
Proof. exact id. Qed.

Lemma plain_post_emit (l : list PlainServer.effect) (w : PlainServer.world)
    (Q : result unit -> PlainServer.world -> list PlainServer.effect -> Prop) :
  Q (Ok tt) w l -> PlainServer.post (PlainServer.emit l) w Q.
Proof. exact id. Qed.

Lemma plain_post_mono {A : Type} (m : Handler A) (w : PlainServer.world)
    (Q Q' : result A -> PlainServer.world -> list PlainServer.effect -> Prop) :
  (forall r w' l, Q r w' l -> Q' r w' l) ->
  PlainServer.post m w Q -> PlainServer.post m w Q'.
Proof. unfold PlainServer.post. destruct (m w) as [[r w'] l]. auto. Qed.

Create HintDb plain_handlers.
#[local] Hint Unfold PlainServer.sendToClient PlainServer.logger PlainServer.listenLive
  PlainServer.theConnection PlainServer.finish PlainServer.getReadyState
  PlainServer.dgSend PlainServer.addTranscriptListener PlainServer.setTimeout
  PlainServer.setupDeepgram PlainServer.setupMicrophone PlainServer.onTranscript
  PlainServer.onDeepgramOpen PlainServer.onDeepgramError PlainServer.onReconnectTimer
  PlainServer.onDeepgramClose PlainServer.onDeepgramRawError
  PlainServer.upstreamWritable PlainServer.onMicData PlainServer.onMicError
  PlainServer.micStop PlainServer.onClose PlainServer.onError PlainServer.onConnection
  PlainServer.assign : plain_handlers.

Ltac pwp_simpl :=
  cbv beta iota;
  cbn [PlainServer.vars PlainServer.wsReadyState PlainServer.connections
       PlainServer.microphones PlainServer.timers
       PlainServer.withVars PlainServer.withWs PlainServer.withConnections
       PlainServer.withMicrophones PlainServer.withTimers
       PlainServer.deepgramConnection PlainServer.micInstance
       PlainServer.isDeepgramConnected PlainServer.totalAudioBytesSent
       PlainServer.lastAudioSentTimestamp
       PlainServer.set_deepgramConnection PlainServer.set_micInstance
       PlainServer.set_isDeepgramConnected PlainServer.set_totalAudioBytesSent
       PlainServer.set_lastAudioSentTimestamp
       isOpen notClosed negb andb orb].

Ltac pwp_known :=
  repeat match goal with
    | E : ?b = true |- context [?b] => rewrite E
    | E : ?b = false |- context [?b] => rewrite E
    | E : ?b = Some _ |- context [?b] => rewrite E
    | E : ?b = None |- context [?b] => rewrite E
    | E : PlainServer.wsReadyState ?w = _ |- context [PlainServer.wsReadyState ?w] =>
        rewrite E
    end.

Ltac pwp_step :=
  lazymatch goal with
  | |- PlainServer.post (PlainServer.bind _ _) _ _ => apply plain_post_bind
  | |- PlainServer.post (PlainServer.ret _) _ _ => apply plain_post_ret
  | |- PlainServer.post (PlainServer.throw _) _ _ => apply plain_post_throw
  | |- PlainServer.post (PlainServer.read _) _ _ => apply plain_post_read
  | |- PlainServer.post (PlainServer.update _) _ _ => apply plain_post_update
  | |- PlainServer.post (PlainServer.perform _) _ _ => apply plain_post_perform
  | |- PlainServer.post (PlainServer.emit _) _ _ => apply plain_post_emit
  | |- PlainServer.post (if ?b then _ else _) _ _ => destruct b eqn:?
  | |- PlainServer.post (match ?x with _ => _ end) _ _ => destruct x eqn:?
  | |- PlainServer.post _ _ _ => progress autounfold with plain_handlers
  | |- match ?r with Ok _ => _ | Throw _ => _ end => destruct r eqn:?
  end; pwp_simpl; pwp_known; pwp_simpl.

Ltac pwp := pwp_simpl; pwp_known; pwp_simpl; repeat pwp_step.

Ltac pturn E :=
  unfold PlainServer.step in E;
  repeat match type of E with
    | context [match ?x with _ => _ end] => destruct x eqn:?
    end; try discriminate E.

Ltac penter E :=
  revert E;
  lazymatch goal with
  | |- Some (PlainServer.runHandler ?h ?w0) = Some (?w', ?l) -> _ =>
      intros E; apply plain_Some_inj in E; revert w' l E;
      lazymatch goal with
      | |- forall w'' l'', PlainServer.runHandler h w0 = (w'', l'') -> @?Q w'' l'' =>
          apply (plain_runHandler_post h w0 Q)
      end
  end.

Lemma plain_times_frames (n : nat) (T : jsstring) (w : PlainServer.world) :
  PlainServer.wsReadyState w <> OPEN ->
  PlainServer.post (PlainServer.times n (PlainServer.onTranscript T)) w
    (fun r w' l => r = Ok tt /\ w' = w /\ List.filter PlainServer.isFrame l = []).
Proof.
  intros Hw. induction n as [|n IH]; simpl.
  - repeat split.
  - apply plain_post_bind. pwp.
    revert IH. apply plain_post_mono. intros r w' l (-> & -> & Hl).
    split; [reflexivity|]. split; [reflexivity|].
    rewrite List.filter_app, Hl, app_nil_r.
    unfold NoTranslation.onTranscript, NoTranslation.sendToClient.
    destruct (PlainServer.wsReadyState w); try congruence;
      destruct (negb (isEmptyString T)); reflexivity.
Qed.

(** The earlier server never writes to a client socket that is not OPEN:
    everything it sends goes through [sendToClient], so a turn that starts
    with the socket CLOSING or CLOSED puts no frame on it. *)
Theorem plain_server_sends_only_when_open (w : PlainServer.world) (e : PlainServer.event)
    (w' : PlainServer.world) (l : list PlainServer.effect) :
  PlainServer.wsReadyState w <> OPEN ->
  PlainServer.step w e = Some (w', l) ->
  List.filter PlainServer.isFrame l = [].
Proof.
  intros Hw E. destruct e; pturn E.
  all: try solve [penter E; pwp;
                  unfold NoTranslation.sendToClient;
                  destruct (PlainServer.wsReadyState w); try congruence; reflexivity].
  - injection E as _ <-. reflexivity.
  - penter E. pose proof (plain_times_frames (transcriptListeners c0) transcript w Hw) as Ht.
    revert Ht. apply plain_post_mono. intros r w' l (-> & -> & Hl).
    simpl. rewrite app_nil_r. exact Hl.
Qed.

Lemma plain_server_sends_only_when_open_witness :
  exists w w' l,
    PlainServer.wsReadyState w <> OPEN
    /\ PlainServer.step w (DeepgramClose 0) = Some (w', l)
    /\ List.filter PlainServer.isFrame l = [].
Proof.
  exists (PlainServer.withWs CLOSING PlainServer.start).
  destruct (PlainServer.step (PlainServer.withWs CLOSING PlainServer.start)
              (DeepgramClose 0)) as [[w' l]|] eqn:E;
    [|vm_compute in E; discriminate E].
  exists w', l.
  assert (Hw : PlainServer.wsReadyState (PlainServer.withWs CLOSING PlainServer.start)
               <> OPEN) by (simpl; congruence).
  split; [exact Hw|]. split; [reflexivity|].
  exact (plain_server_sends_only_when_open _ _ _ _ Hw E).
Defined.

Lemma plain_run_cons (w : PlainServer.world) (e : PlainServer.event)
    (es : list PlainServer.event) :
  PlainServer.run w (e :: es) =
  match PlainServer.step w e with
  | Some (w1, l1) =>
      match PlainServer.run w1 es with
      | Some (w2, l2) => Some (w2, l1 ++ l2)
      | None => None
      end
  | None => None
  end.
Proof. reflexivity. Qed.

Lemma plain_run_app (es1 es2 : list PlainServer.event) (w w1 w2 : PlainServer.world)
    (l1 l2 : list PlainServer.effect) :
  PlainServer.run w es1 = Some (w1, l1) ->
  PlainServer.run w1 es2 = Some (w2, l2) ->
  PlainServer.run w (es1 ++ es2) = Some (w2, l1 ++ l2).
Proof.
  revert w l1. induction es1 as [|e es1 IH]; intros w l1 H1 H2.
  - simpl in H1. injection H1 as <- <-. exact H2.
  - rewrite <- app_comm_cons, plain_run_cons. rewrite plain_run_cons in H1.
    destruct (PlainServer.step w e) as [[wa la]|]; [|discriminate].
    destruct (PlainServer.run wa es1) as [[wb lb]|] eqn:Eb; [|discriminate].
    injection H1 as <- <-.
    rewrite (IH wa lb Eb H2), app_assoc. reflexivity.
Qed.

Lemma filter_client (f : PlainServer.effect -> bool) (l : list NoTranslation.effect) :
  (forall e, f (Client e) = false) ->
  List.filter f (map Client l) = [].
Proof.
  intros Hf. induction l as [|e l IH]; simpl; [reflexivity|].
  rewrite Hf. exact IH.
Qed.

Ltac plain_filters :=
  repeat rewrite List.filter_app;
  repeat rewrite filter_client by reflexivity;
  simpl.

Lemma plain_failed_attempt (c : nat) (w : PlainServer.world) :
  PlainServer.pending c w ->
  exists w2 l2,
    PlainServer.run w [DeepgramClose c; TimerFires] = Some (w2, l2)
    /\ PlainServer.pending (S c) w2
    /\ PlainServer.wsReadyState w2 = PlainServer.wsReadyState w
    /\ List.filter PlainServer.isSetTimeout l2 = [SetTimeout 5000]
    /\ List.filter PlainServer.isDgListen l2 = [DgListen (S c)].
Proof.
  intros (Hlen & k & Hk & Hr).
  assert (Hn : notClosed (readyState k) = true)
    by (destruct (readyState k); try reflexivity; contradiction Hr; reflexivity).
  rewrite plain_run_cons. unfold PlainServer.step at 1. rewrite Hk, Hn.
  destruct (PlainServer.runHandler onDeepgramClose _) as [w1 l1] eqn:E1.
  assert (H1 : w1 = PlainServer.withTimers S
                      (PlainServer.withVars (PlainServer.set_isDeepgramConnected false)
                         (PlainServer.withConnections (alter (setReadyState CLOSED) c) w))
               /\ List.filter PlainServer.isSetTimeout l1 = [SetTimeout 5000]
               /\ List.filter PlainServer.isDgListen l1 = []).
  { revert w1 l1 E1. apply plain_runHandler_post. pwp.
    split; [reflexivity|]. split; plain_filters; reflexivity. }
  destruct H1 as (-> & Ht1 & Hg1).
  rewrite plain_run_cons. unfold PlainServer.step at 1.
  cbn [PlainServer.timers PlainServer.withTimers PlainServer.withVars
       PlainServer.withConnections].
  destruct (PlainServer.runHandler onReconnectTimer _) as [w2 l2] eqn:E2.
  assert (H2 : PlainServer.pending (S c) w2
               /\ PlainServer.wsReadyState w2 = PlainServer.wsReadyState w
               /\ List.filter PlainServer.isSetTimeout l2 = []
               /\ List.filter PlainServer.isDgListen l2 = [DgListen (S c)]).
  { revert w2 l2 E2. apply plain_runHandler_post. pwp.
    rewrite !length_alter, Hlen.
    split; [|split; [reflexivity|split; plain_filters; reflexivity]].
    unfold PlainServer.pending. pwp_simpl.
    rewrite length_app, !length_alter, Hlen.
    split; [simpl; lia|].
    exists freshConnection. split; [|discriminate].
    rewrite lookup_app_r by (rewrite !length_alter; lia).
    rewrite !length_alter, Hlen, Nat.sub_diag. reflexivity. }
  destruct H2 as (Ha & Hws & Ht2 & Hg2).
  exists w2, (l1 ++ l2 ++ []). split; [reflexivity|]. split; [exact Ha|].
  split; [exact Hws|].
  rewrite app_nil_r, !List.filter_app, Ht1, Ht2, Hg1, Hg2. split; reflexivity.
Qed.

(** The earlier server reconnects whatever the state of the client.  From
    any state in which the connection made last has not closed, also one
    reached after the client has gone, [n] upstream closes in a row schedule
    [n] reconnects of 5000 ms and make [n] further connections. *)
Theorem plain_server_reconnects_without_client (n c : nat) (w : PlainServer.world) :
  PlainServer.pending c w ->
  exists w' l,
    PlainServer.run w (PlainServer.outage c n) = Some (w', l)
    /\ PlainServer.pending (c + n) w'
    /\ PlainServer.wsReadyState w' = PlainServer.wsReadyState w
    /\ List.filter PlainServer.isSetTimeout l = repeat (SetTimeout 5000) n
    /\ List.filter PlainServer.isDgListen l = map DgListen (seq (S c) n).
Proof.
  revert c w. induction n as [|n IH]; intros c w Hw.
  - exists w, []. rewrite Nat.add_0_r.
    split; [reflexivity|]. split; [exact Hw|]. split; [reflexivity|]. split; reflexivity.
  - destruct (plain_failed_attempt c w Hw) as (w2 & l2 & H2 & Ha2 & Hs2 & Ht2 & Hg2).
    destruct (IH (S c) w2 Ha2) as (w' & l & H & Ha & Hs & Ht & Hg).
    exists w', (l2 ++ l). split.
    + exact (plain_run_app [DeepgramClose c; TimerFires] (PlainServer.outage (S c) n)
               w w2 w' l2 l H2 H).
    + replace (c + S n)%nat with (S c + n)%nat by lia. split; [exact Ha|].
      split; [congruence|].
      rewrite !List.filter_app, Ht, Hg, Ht2, Hg2. split; reflexivity.
Qed.

Lemma plain_server_reconnects_without_client_witness :
  exists w0 l0 w' l,
    PlainServer.run PlainServer.start [DeepgramOpen 0; WsClose] = Some (w0, l0)
    /\ PlainServer.wsReadyState w0 = CLOSED
    /\ readyState <$> PlainServer.connections w0 !! 0%nat = Some OPEN
    /\ PlainServer.pending 0 w0
    /\ PlainServer.run w0 (PlainServer.outage 0 3) = Some (w', l)
    /\ PlainServer.wsReadyState w' = CLOSED
    /\ List.filter PlainServer.isSetTimeout l = repeat (SetTimeout 5000) 3
    /\ List.filter PlainServer.isDgListen l = [DgListen 1; DgListen 2; DgListen 3].
Proof.
  destruct (PlainServer.run PlainServer.start [DeepgramOpen 0; WsClose])
    as [[w0 l0]|] eqn:E; [|vm_compute in E; discriminate E].
  exists w0, l0.
  assert (Hw : PlainServer.wsReadyState w0 = CLOSED
               /\ readyState <$> PlainServer.connections w0 !! 0%nat = Some OPEN
               /\ PlainServer.pending 0 w0).
  { vm_compute in E. injection E as <- <-.
    split; [reflexivity|]. split; [reflexivity|].
    split; [reflexivity|]. eexists. split; [reflexivity|]. simpl. discriminate. }
  destruct Hw as (Hc & Ho & Hp).
  destruct (plain_server_reconnects_without_client 3 0 w0 Hp)
    as (w' & l & H & _ & Hs & Ht & Hg).
  exists w', l. split; [reflexivity|]. split; [exact Hc|]. split; [exact Ho|].
  split; [exact Hp|]. split; [exact H|]. split; [congruence|].
  split; [exact Ht|exact Hg].
Defined.

(** In the earlier server the Open listener does not look at the client:
    whenever an upstream connection opens, also after the client has gone,
    the session counts itself as connected and starts a new microphone. *)
Theorem plain_server_open_starts_microphone (w : PlainServer.world) (c d : nat)
    (w' : PlainServer.world) (l : list PlainServer.effect) :
  PlainServer.deepgramConnection (PlainServer.vars w) = Some d ->
  PlainServer.step w (DeepgramOpen c) = Some (w', l) ->
  PlainServer.microphones w' = PlainServer.microphones w ++ [true]
  /\ PlainServer.micInstance (PlainServer.vars w')
     = Some (length (PlainServer.microphones w))
  /\ PlainServer.isDeepgramConnected (PlainServer.vars w') = true
  /\ PlainServer.wsReadyState w' = PlainServer.wsReadyState w
  /\ List.filter PlainServer.isMicStart l = [MicStart (length (PlainServer.microphones w))]
  /\ List.filter PlainServer.isDgFinish l = [].
Proof.
  intros Hd E. pturn E. penter E. pwp.
  split.
  { rewrite alter_app_r_alt by (rewrite ?length_app; simpl; lia).
    rewrite Nat.sub_diag. reflexivity. }
  split; [reflexivity|]. split; [reflexivity|]. split; [reflexivity|].
  split; plain_filters; reflexivity.
Qed.

Lemma plain_server_open_starts_microphone_witness :
  exists w0 l0 w' l,
    PlainServer.step PlainServer.start WsClose = Some (w0, l0)
    /\ PlainServer.step w0 (DeepgramOpen 0) = Some (w', l)
    /\ PlainServer.wsReadyState w' = CLOSED
    /\ PlainServer.microphones w' = [true]
    /\ List.filter PlainServer.isMicStart l = [MicStart 0]
    /\ List.filter PlainServer.isDgFinish l = [].
Proof.
  destruct (PlainServer.step PlainServer.start WsClose) as [[w0 l0]|] eqn:E0;
    [|vm_compute in E0; discriminate E0].
  exists w0, l0. vm_compute in E0. injection E0 as <- <-.
  match goal with
  | |- exists w' l, _ /\ PlainServer.step ?w0 ?e = _ /\ _ =>
      destruct (PlainServer.step w0 e) as [[w' l]|] eqn:E;
        [|vm_compute in E; discriminate E];
      destruct (plain_server_open_starts_microphone w0 0 0 w' l eq_refl E)
        as (Hm & _ & _ & Hs & Hl & Hf)
  end.
  exists w', l. split; [reflexivity|]. split; [reflexivity|].
  split; [exact Hs|]. split; [exact Hm|]. split; [exact Hl|exact Hf].
Defined.

Lemma plain_times_client (n : nat) (T : jsstring) (w : PlainServer.world) :
  PlainServer.post (PlainServer.times n (PlainServer.onTranscript T)) w
    (fun r w' l => r = Ok tt /\ w' = w /\ exists cl, l = map Client cl).
Proof.
  induction n as [|n IH]; simpl.
  - split; [reflexivity|]. split; [reflexivity|]. exists []. reflexivity.
  - apply plain_post_bind. pwp.
    revert IH. apply plain_post_mono. intros r w' l (-> & -> & cl & ->).
    split; [reflexivity|]. split; [reflexivity|].
    eexists. rewrite app_nil_l, <- List.map_app. reflexivity.
Qed.

Lemma plain_step_after_close (w : PlainServer.world) (e : PlainServer.event)
    (w' : PlainServer.world) (l : list PlainServer.effect) (m : nat) :
  PlainServer.wsReadyState w = CLOSED ->
  PlainServer.microphones w !! m = Some true ->
  PlainServer.step w e = Some (w', l) ->
  PlainServer.wsReadyState w' = CLOSED
  /\ PlainServer.microphones w' !! m = Some true
  /\ List.filter PlainServer.isMicStop l = [].
Proof.
  intros Hw Hm E.
  assert (Hlt : (m < length (PlainServer.microphones w))%nat)
    by (apply lookup_lt_is_Some; eexists; exact Hm).
  destruct e; pturn E.
  all: try solve [rewrite Hw in *; discriminate].
  all: try solve [penter E; pwp; plain_filters; repeat split; try assumption;
                  rewrite list_lookup_alter_ne by (rewrite ?length_app; simpl; lia);
                  rewrite lookup_app_l by lia; assumption].
  penter E.
  pose proof (plain_times_client (transcriptListeners c0) transcript w) as Ht.
  revert Ht. apply plain_post_mono. intros r w' l (-> & -> & cl & ->).
  split; [assumption|]. split; [assumption|].
  simpl. rewrite app_nil_r. apply filter_client. reflexivity.
Qed.

(** The earlier server stops only the microphone named by [micInstance] and
    only in the close handler of the client.  Once the client socket is
    CLOSED, whatever happens next stops no microphone: one that is running
    then, such as one started by an upstream Open after the client left,
    runs on. *)
Theorem plain_server_microphone_outlives_client (es : list PlainServer.event)
    (w w' : PlainServer.world) (l : list PlainServer.effect) (m : nat) :
  PlainServer.wsReadyState w = CLOSED ->
  PlainServer.microphones w !! m = Some true ->
  PlainServer.run w es = Some (w', l) ->
  PlainServer.microphones w' !! m = Some true
  /\ List.filter PlainServer.isMicStop l = [].
Proof.
  revert w l. induction es as [|e es IH]; intros w l Hw Hm E.
  - injection E as <- <-. split; [exact Hm|reflexivity].
  - rewrite plain_run_cons in E.
    destruct (PlainServer.step w e) as [[w1 l1]|] eqn:E1; [|discriminate].
    destruct (PlainServer.run w1 es) as [[w2 l2]|] eqn:E2; [|discriminate].
    injection E as <- <-.
    destruct (plain_step_after_close w e w1 l1 m Hw Hm E1) as (Hw1 & Hm1 & Hl1).
    destruct (IH w1 l2 Hw1 Hm1 E2) as (Hm2 & Hl2).
    split; [exact Hm2|]. rewrite List.filter_app, Hl1, Hl2. reflexivity.
Qed.

Lemma plain_server_microphone_outlives_client_witness :
  exists w l0 w' l,
    PlainServer.run PlainServer.start [WsClose; DeepgramOpen 0] = Some (w, l0)
    /\ PlainServer.wsReadyState w = CLOSED
    /\ PlainServer.microphones w !! 0%nat = Some true
    /\ PlainServer.run w [MicData 0 7 [1%N; 2%N]; DeepgramClose 0; TimerFires;
                          DeepgramOpen 1]
       = Some (w', l)
    /\ PlainServer.microphones w' !! 0%nat = Some true
    /\ List.filter PlainServer.isMicStop l = [].
Proof.
  destruct (PlainServer.run PlainServer.start [WsClose; DeepgramOpen 0])
    as [[w l0]|] eqn:E0; [|vm_compute in E0; discriminate E0].
  exists w, l0. vm_compute in E0. injection E0 as <- <-.
  match goal with
  | |- exists w' l, _ /\ _ /\ _ /\ PlainServer.run ?w ?es = _ /\ _ =>
      destruct (PlainServer.run w es) as [[w' l]|] eqn:E;
        [|vm_compute in E; discriminate E];
      destruct (plain_server_microphone_outlives_client es w w' l 0 eq_refl eq_refl E)
        as (Hm & Hl)
  end.
  exists w', l. split; [reflexivity|]. split; [reflexivity|]. split; [reflexivity|].
  split; [reflexivity|]. split; [exact Hm|exact Hl].
Defined.

Lemma plain_chunk_while_disconnected (w : PlainServer.world) (m : nat) (now : Z)
    (data : list N) :
  PlainServer.isDeepgramConnected (PlainServer.vars w) = false ->
  PlainServer.microphones w !! m = Some true ->
  exists w' l,
    PlainServer.step w (MicData m now data) = Some (w', l)
    /\ PlainServer.connections w' = PlainServer.connections w ++ [freshConnection]
    /\ PlainServer.microphones w' = PlainServer.microphones w
    /\ PlainServer.isDeepgramConnected (PlainServer.vars w') = false
    /\ PlainServer.deepgramConnection (PlainServer.vars w')
       = Some (length (PlainServer.connections w))
    /\ List.filter PlainServer.isDgListen l = [DgListen (length (PlainServer.connections w))]
    /\ List.filter PlainServer.isDgSend l = []
    /\ List.filter PlainServer.isDgFinish l = [].
Proof.
  intros Hc Hm. unfold PlainServer.step. rewrite Hm.
  destruct (PlainServer.runHandler (onMicData now data) w) as [w' l] eqn:E.
  exists w', l. split; [reflexivity|].
  revert w' l E. apply plain_runHandler_post. pwp.
  all: plain_filters; repeat split.
Qed.

(** The earlier server makes a new upstream connection for every chunk the
    microphone delivers while the session counts itself as disconnected.
    [n] chunks make [n] connections; none of the chunks is sent to any of
    them, and none of the connections is finished. *)
Theorem plain_server_connection_per_chunk (chunks : list (Z * list N)) (m : nat)
    (w : PlainServer.world) :
  PlainServer.isDeepgramConnected (PlainServer.vars w) = false ->
  PlainServer.microphones w !! m = Some true ->
  exists w' l,
    PlainServer.run w (PlainServer.micChunks m chunks) = Some (w', l)
    /\ PlainServer.connections w'
       = PlainServer.connections w ++ repeat freshConnection (length chunks)
    /\ PlainServer.isDeepgramConnected (PlainServer.vars w') = false
    /\ List.filter PlainServer.isDgListen l
       = map DgListen (seq (length (PlainServer.connections w)) (length chunks))
    /\ List.filter PlainServer.isDgSend l = []
    /\ List.filter PlainServer.isDgFinish l = [].
Proof.
  revert w. induction chunks as [|[now data] chunks IH]; intros w Hc Hm.
  - exists w, []. simpl. rewrite app_nil_r. repeat split; assumption.
  - destruct (plain_chunk_while_disconnected w m now data Hc Hm)
      as (w1 & l1 & E1 & Hk1 & Hm1 & Hc1 & _ & Hg1 & Hs1 & Hf1).
    rewrite <- Hm1 in Hm.
    destruct (IH w1 Hc1 Hm) as (w' & l & E & Hk & Hc' & Hg & Hs & Hf).
    exists w', (l1 ++ l). split.
    { unfold PlainServer.micChunks in *. cbn [List.map fst snd].
      rewrite plain_run_cons, E1, E. reflexivity. }
    split.
    { rewrite Hk, Hk1, <- app_assoc. reflexivity. }
    split; [exact Hc'|].
    rewrite !List.filter_app, Hg1, Hs1, Hf1, Hg, Hs, Hf, Hk1, length_app.
    simpl. rewrite Nat.add_1_r. repeat split.
Qed.

Lemma plain_server_connection_per_chunk_witness :
  exists w l0 w' l,
    PlainServer.run PlainServer.start [DeepgramOpen 0; DeepgramClose 0] = Some (w, l0)
    /\ PlainServer.run w (PlainServer.micChunks 0 [(1, [0%N; 1%N]); (2, [2%N]); (3, [])])
       = Some (w', l)
    /\ length (PlainServer.connections w') = 4%nat
    /\ List.filter PlainServer.isDgListen l = [DgListen 1; DgListen 2; DgListen 3]
    /\ List.filter PlainServer.isDgSend l = [].
Proof.
  destruct (PlainServer.run PlainServer.start [DeepgramOpen 0; DeepgramClose 0])
    as [[w l0]|] eqn:E0; [|vm_compute in E0; discriminate E0].
  exists w, l0. vm_compute in E0. injection E0 as <- <-.
  match goal with
  | |- exists w' l, _ /\ PlainServer.run ?w (PlainServer.micChunks ?m ?cs) = _ /\ _ =>
      destruct (plain_server_connection_per_chunk cs m w eq_refl eq_refl)
        as (w' & l & E & Hk & _ & Hg & Hs & _)
  end.
  exists w', l. split; [reflexivity|]. split; [exact E|].
  split; [rewrite Hk; reflexivity|]. split; [exact Hg|exact Hs].
Defined.

End PlainServerProperties.
